(** * Inventory ledger of METAL-MECANICA SAC: a shallow embedding

    The development follows [2_GRUPO_04_TF_FP2_25-2.py], the variant of the
    program with typed exceptions, per-product movement lists and the
    national / imported product hierarchy.

    - Python [int] values (quantities, stocks, minimum stocks) are [Z].
    - Costs and tax rates are Python numbers ([float], or [int] for the
      default cost [0]); they are kept abstract as a type [num] with the
      arithmetic the code uses on it.
    - A [datetime] is a point on a linear time axis, a [Z]; the clock
      reading taken by [Movimiento.__init__] is an argument of the
      operations that create a movement.
    - The singleton [SistemaInventario] is a record that is threaded
      through the operations; an operation returns its outcome (a value or
      a raised exception) together with the state it leaves behind, so
      that "nothing was mutated before the raise" is a statement and not
      an artefact of the encoding. *)

From Stdlib Require Import ZArith String List Bool Lia DecimalString.
From Stdlib Require Import Sorted Permutation.
Import ListNotations.

Open Scope string_scope.
Open Scope Z_scope.

(** ** Python built-ins used by the program *)

(** [str(n)] for an [int]: decimal digits, a leading minus sign when
    negative. *)
Definition str_int (z : Z) : string := NilZero.string_of_int (Z.to_int z).

(** [sub in s] on strings: [sub] occurs in [s] as a contiguous slice. *)
Fixpoint en (sub s : string) : bool :=
  prefix sub s ||
  match s with
  | EmptyString => false
  | String _ s' => en sub s'
  end.

(** Truth value of a string: only the empty string is false. *)
Definition verdadero (s : string) : bool := negb (s =? "")%string.

(** ** Dictionaries with insertion order

    [dict] iterates in insertion order; [d[k] = v] replaces the value of
    an existing key in place and appends a new key at the end. *)
Section Dict.
Context {V : Type}.

Definition dict := list (string * V).

Fixpoint obtener (k : string) (d : dict) : option V :=
  match d with
  | [] => None
  | (k', v) :: d' => if (k =? k')%string then Some v else obtener k d'
  end.

Definition contiene (k : string) (d : dict) : bool :=
  match obtener k d with Some _ => true | None => false end.

Fixpoint asignar (k : string) (v : V) (d : dict) : dict :=
  match d with
  | [] => [(k, v)]
  | (k', v') :: d' =>
      if (k =? k')%string then (k', v) :: d'
      else (k', v') :: asignar k v d'
  end.

Definition claves (d : dict) : list string := map fst d.
Definition valores (d : dict) : list V := map snd d.
End Dict.
Arguments dict : clear implicits.

(** ** Exceptions *)

(** The three subclasses of [ErrorInventario], and the built-in
    [ValueError] raised by [registrar_producto]; each carries its
    message. *)
Inductive Excepcion : Type :=
| ProductoNoEncontrado (mensaje : string)
| StockInsuficiente (mensaje : string)
| CodigoDuplicado (mensaje : string)
| ValueError (mensaje : string).

(** What a call leaves its caller with: the returned value, or the
    exception it raised. *)
Inductive Resultado (A : Type) : Type :=
| Devuelve (a : A)
| Lanza (e : Excepcion).
Arguments Devuelve {A} a.
Arguments Lanza {A} e.

(** ** Proveedor *)

Record Proveedor : Type := {
  prov_nombre : string;
  prov_ruc : string;
  prov_telefono : string
}.

(** [Proveedor(nombre)] with the default [ruc] and [telefono]. *)
Definition Proveedor_de_nombre (nombre : string) : Proveedor :=
  {| prov_nombre := nombre;
     prov_ruc := "00000000000";
     prov_telefono := "999999999" |}.

(** ** Movimiento

    A [Movimiento] keeps a reference to its [Producto] object.  The
    ledger reads exactly one thing through that reference, the product's
    [codigo], which has no setter; the reference is therefore represented
    by that code ([mov_producto_codigo] is [m.producto.codigo]). *)
Record Movimiento : Type := {
  mov_tipo : string;
  mov_producto_codigo : string;
  mov_cantidad : Z;
  mov_fecha : Z;
  mov_usuario : string
}.

(** ** Numbers

    The arithmetic the program performs on costs, tax rates and
    valuations: an [int] operand is converted ([num_de_int]) when it meets
    a cost, and sums and products are taken in the number type. *)
Class Numeros : Type := {
  num : Type;
  num_de_int : Z -> num;
  num_suma : num -> num -> num;
  num_producto : num -> num -> num
}.

(** Python's [int] is itself such a number type. *)
#[export] Instance Numeros_int : Numeros := {|
  num := Z;
  num_de_int := fun z => z;
  num_suma := Z.add;
  num_producto := Z.mul
|}.

Section Inventario.

Context {N : Numeros}.

(** [str.lower], Python's Unicode case mapping. *)
Variable lower : string -> string.

(** ** Producto and its two subclasses *)

Inductive Clase : Type :=
| ProductoNacional (region_origen : string)
| ProductoImportado (impuesto : num).

Record Producto : Type := {
  codigo : string;
  nombre : string;
  categoria : string;
  stock_minimo : Z;
  proveedor : Proveedor;
  costo_unitario : num;
  stock_actual : Z;
  movimientos : list Movimiento;
  clase : Clase
}.

(** [Producto.__init__], reached through the subclass constructors:
    stock starts at [0] and the movement list is empty.
    [proveedor_info] is a [Proveedor] or the name of one. *)
Definition Producto_init (codigo nombre categoria : string)
    (stock_minimo : Z) (proveedor_info : Proveedor + string)
    (costo_unitario : num) (clase : Clase) : Producto :=
  {| codigo := codigo;
     nombre := nombre;
     categoria := categoria;
     stock_minimo := stock_minimo;
     proveedor :=
       match proveedor_info with
       | inl p => p
       | inr n => Proveedor_de_nombre n
       end;
     costo_unitario := costo_unitario;
     stock_actual := 0;
     movimientos := [];
     clase := clase |}.

(** [self.__stock_actual += cantidad] *)
Definition actualizar_stock (p : Producto) (cantidad : Z) : Producto :=
  {| codigo := codigo p;
     nombre := nombre p;
     categoria := categoria p;
     stock_minimo := stock_minimo p;
     proveedor := proveedor p;
     costo_unitario := costo_unitario p;
     stock_actual := stock_actual p + cantidad;
     movimientos := movimientos p;
     clase := clase p |}.

(** [return self.__stock_actual <= self.__stock_minimo] *)
Definition verificar_stock_minimo (p : Producto) : bool :=
  stock_actual p <=? stock_minimo p.

(** [self.__movimientos.append(movimiento)] *)
Definition agregar_movimiento (p : Producto) (m : Movimiento) : Producto :=
  {| codigo := codigo p;
     nombre := nombre p;
     categoria := categoria p;
     stock_minimo := stock_minimo p;
     proveedor := proveedor p;
     costo_unitario := costo_unitario p;
     stock_actual := stock_actual p;
     movimientos := movimientos p ++ [m];
     clase := clase p |}.

(** [ProductoImportado.costo_con_impuesto]:
    [self.costo_unitario * (1 + self.__impuesto)] *)
Definition costo_con_impuesto (costo impuesto : num) : num :=
  num_producto costo (num_suma (num_de_int 1) impuesto).

(** [Movimiento.crear_movimiento]: no date is passed on, so the
    constructor stamps the movement with the current time [ahora]. *)
Definition crear_movimiento (tipo : string) (producto : Producto)
    (cantidad : Z) (usuario : string) (ahora : Z) : Movimiento :=
  {| mov_tipo := tipo;
     mov_producto_codigo := codigo producto;
     mov_cantidad := cantidad;
     mov_fecha := ahora;
     mov_usuario := usuario |}.

(** ** SistemaInventario *)

Record SistemaInventario : Type := {
  sis_productos : dict Producto;
  sis_movimientos : list Movimiento
}.

(** The instance as [__new__] creates it. *)
Definition sistema_vacio : SistemaInventario :=
  {| sis_productos := []; sis_movimientos := [] |}.

(** *** The state monad of the ledger *)

Definition M (A : Type) : Type :=
  SistemaInventario -> Resultado A * SistemaInventario.

Definition ret {A} (a : A) : M A := fun s => (Devuelve a, s).

Definition bind {A B} (m : M A) (f : A -> M B) : M B :=
  fun s =>
    match m s with
    | (Devuelve a, s') => f a s'
    | (Lanza e, s') => (Lanza e, s')
    end.

Definition lanzar {A} (e : Excepcion) : M A := fun s => (Lanza e, s).

Definition leer : M SistemaInventario := fun s => (Devuelve s, s).

(** [self.__productos[codigo] = producto] *)
Definition guardar_producto (c : string) (p : Producto) : M unit :=
  fun s =>
    (Devuelve tt,
     {| sis_productos := asignar c p (sis_productos s);
        sis_movimientos := sis_movimientos s |}).

(** [self.__movimientos.append(movimiento)] *)
Definition anotar_movimiento (m : Movimiento) : M unit :=
  fun s =>
    (Devuelve tt,
     {| sis_productos := sis_productos s;
        sis_movimientos := sis_movimientos s ++ [m] |}).

(** A method call that mutates the product object stored under key [c];
    the dictionary keeps pointing at the same, now changed, object. *)
Definition mutar_producto (c : string) (f : Producto -> Producto) : M unit :=
  fun s =>
    match obtener c (sis_productos s) with
    | Some p => guardar_producto c (f p) s
    | None => (Devuelve tt, s)
    end.

Notation "x <- m ;; k" := (bind m (fun x => k))
  (at level 61, m at next level, right associativity).
Notation "m ;;; k" := (bind m (fun _ => k))
  (at level 61, right associativity).

(** *** registrar_producto *)

(** [datos_extra]: the two keys the code reads, each absent or present
    with a value of the documented type.  Other keys are never read, and
    when the key that is asked for is missing the same [ValueError] is
    raised whether or not the dictionary holds anything else. *)
Record DatosExtra : Type := {
  de_region_origen : option string;
  de_impuesto : option num
}.

Definition es_some {A} (o : option A) : bool :=
  match o with Some _ => true | None => false end.

(** Truth value of [datos_extra]: [None] and the empty dictionary are
    false. *)
Definition datos_verdadero (d : option DatosExtra) : bool :=
  match d with
  | None => false
  | Some d => es_some (de_region_origen d) || es_some (de_impuesto d)
  end.

(** The guard [not datos_extra or "region_origen" not in datos_extra]
    followed by [datos_extra["region_origen"]]: [None] when the guard
    raises, the value under the key otherwise. *)
Definition leer_region_origen (datos_extra : option DatosExtra)
  : option string :=
  if negb (datos_verdadero datos_extra) then None
  else match datos_extra with
       | Some d => de_region_origen d
       | None => None
       end.

(** The same for [not datos_extra or "impuesto" not in datos_extra] and
    [datos_extra["impuesto"]]. *)
Definition leer_impuesto (datos_extra : option DatosExtra) : option num :=
  if negb (datos_verdadero datos_extra) then None
  else match datos_extra with
       | Some d => de_impuesto d
       | None => None
       end.

Definition registrar_producto (codigo nombre categoria : string)
    (stock_minimo : Z) (proveedor_info : Proveedor + string)
    (costo_unitario : num) (tipo_producto : string)
    (datos_extra : option DatosExtra) : M Producto :=
  s <- leer ;;
  if contiene codigo (sis_productos s) then
    lanzar (CodigoDuplicado
              ("Error: El codigo '" ++ codigo ++ "' ya existe en el sistema"))
  else
    producto <-
      (if (tipo_producto =? "nacional")%string then
         match leer_region_origen datos_extra with
         | None =>
             lanzar (ValueError
               "Producto nacional requiere 'region_origen' en datos_extra")
         | Some region =>
             ret (Producto_init codigo nombre categoria stock_minimo
                    proveedor_info costo_unitario (ProductoNacional region))
         end
       else if (tipo_producto =? "importado")%string then
         match leer_impuesto datos_extra with
         | None =>
             lanzar (ValueError
               "Producto importado requiere 'impuesto' en datos_extra")
         | Some impuesto =>
             ret (Producto_init codigo nombre categoria stock_minimo
                    proveedor_info costo_unitario
                    (ProductoImportado impuesto))
         end
       else
         lanzar (ValueError
           ("Tipo de producto no válido: " ++ tipo_producto
            ++ ". Use 'nacional' o 'importado'"))) ;;
    guardar_producto codigo producto ;;;
    ret producto.

(** *** registrar_ingreso *)

Definition registrar_ingreso (codigo_producto : string) (cantidad : Z)
    (tipo_ingreso usuario : string) (ahora : Z) : M Movimiento :=
  s <- leer ;;
  match obtener codigo_producto (sis_productos s) with
  | None =>
      lanzar (ProductoNoEncontrado
                ("Error: Producto con codigo '" ++ codigo_producto
                 ++ "' no encontrado"))
  | Some producto =>
      let movimiento :=
        crear_movimiento ("ingreso_" ++ tipo_ingreso) producto cantidad
          usuario ahora in
      anotar_movimiento movimiento ;;;
      mutar_producto codigo_producto
        (fun p => actualizar_stock p cantidad) ;;;
      mutar_producto codigo_producto
        (fun p => agregar_movimiento p movimiento) ;;;
      ret movimiento
  end.

(** *** registrar_salida *)

Definition registrar_salida (codigo_producto : string) (cantidad : Z)
    (tipo_salida usuario : string) (ahora : Z) : M Movimiento :=
  s <- leer ;;
  match obtener codigo_producto (sis_productos s) with
  | None =>
      lanzar (ProductoNoEncontrado
                ("Error: Producto con codigo '" ++ codigo_producto
                 ++ "' no encontrado"))
  | Some producto =>
      if stock_actual producto <? cantidad then
        lanzar (StockInsuficiente
                  ("Error: Stock insuficiente para '" ++ nombre producto
                   ++ "'. " ++ "Stock actual: "
                   ++ str_int (stock_actual producto)
                   ++ ", Solicitado: " ++ str_int cantidad))
      else
        let movimiento :=
          crear_movimiento ("salida_" ++ tipo_salida) producto (- cantidad)
            usuario ahora in
        anotar_movimiento movimiento ;;;
        mutar_producto codigo_producto
          (fun p => actualizar_stock p (- cantidad)) ;;;
        mutar_producto codigo_producto
          (fun p => agregar_movimiento p movimiento) ;;;
        ret movimiento
  end.

(** *** buscar_producto

    The loop over [self.__productos.values()], appending the products
    that pass the test.  [and] and [or] short-circuit as [&&] and [||]
    do. *)
Definition coincide (criterio valor : string) (producto : Producto) : bool :=
  ((criterio =? "codigo")%string
     && en (lower valor) (lower (codigo producto)))
  || ((criterio =? "nombre")%string
        && en (lower valor) (lower (nombre producto)))
  || ((criterio =? "categoria")%string
        && en (lower valor) (lower (categoria producto))).

Definition buscar_producto (s : SistemaInventario)
    (criterio valor : string) : list Producto :=
  fold_left
    (fun resultados producto =>
       if coincide criterio valor producto
       then (resultados ++ [producto])%list
       else resultados)
    (valores (sis_productos s)) [].

(** *** calcular_valor_inventario

    The method prints one row per product and the total; the model
    returns the numbers it prints, before they are formatted. *)
Record FilaValor : Type := {
  fila_nombre : string;
  fila_tipo : string;
  fila_stock : Z;
  fila_costo_unit : num;
  fila_valor_producto : num
}.

(** One turn of the loop: the row of [producto].  [hasattr(producto,
    "costo_con_impuesto")] holds for the imported subclass only. *)
Definition fila_de (producto : Producto) : FilaValor :=
  let costo_unit := costo_unitario producto in
  let tipo :=
    match clase producto with
    | ProductoNacional _ => "NACIONAL"
    | ProductoImportado _ => "IMPORTADO"
    end in
  let costo_unit :=
    match clase producto with
    | ProductoImportado impuesto =>
        costo_con_impuesto (costo_unitario producto) impuesto
    | ProductoNacional _ => costo_unit
    end in
  let valor_producto :=
    num_producto (num_de_int (stock_actual producto)) costo_unit in
  {| fila_nombre := nombre producto;
     fila_tipo := tipo;
     fila_stock := stock_actual producto;
     fila_costo_unit := costo_unit;
     fila_valor_producto := valor_producto |}.

Definition calcular_valor_inventario (s : SistemaInventario)
  : list FilaValor * num :=
  fold_left
    (fun '(filas, valor_total) producto =>
       let fila := fila_de producto in
       ((filas ++ [fila])%list,
        num_suma valor_total (fila_valor_producto fila)))
    (valores (sis_productos s)) ([], num_de_int 0).

(** *** obtener_historial_movimientos

    [codigo_producto] is [None] or a string, and is tested for truth:
    the empty string is skipped like [None].  The dates are [None] or a
    [datetime], which is always true. *)
Definition obtener_historial_movimientos (s : SistemaInventario)
    (codigo_producto : option string) (fecha_inicio fecha_fin : option Z)
  : list Movimiento :=
  let movimientos_filtrados := sis_movimientos s in
  let movimientos_filtrados :=
    match codigo_producto with
    | Some c =>
        if verdadero c then
          filter (fun m => (mov_producto_codigo m =? c)%string)
            movimientos_filtrados
        else movimientos_filtrados
    | None => movimientos_filtrados
    end in
  let movimientos_filtrados :=
    match fecha_inicio with
    | Some f => filter (fun m => mov_fecha m >=? f) movimientos_filtrados
    | None => movimientos_filtrados
    end in
  let movimientos_filtrados :=
    match fecha_fin with
    | Some f => filter (fun m => mov_fecha m <=? f) movimientos_filtrados
    | None => movimientos_filtrados
    end in
  movimientos_filtrados.

End Inventario.

(** ** Sequences of ledger calls

    The ledger is driven by calls of its three mutating operations.  A
    call that raises still leaves a state behind, and the next call starts
    from it. *)
Section Llamadas.

Context {N : Numeros}.

Inductive Llamada : Type :=
| LlamaRegistrarProducto (codigo nombre categoria : string)
    (stock_minimo : Z) (proveedor_info : Proveedor + string)
    (costo_unitario : num) (tipo_producto : string)
    (datos_extra : option DatosExtra)
| LlamaRegistrarIngreso (codigo_producto : string) (cantidad : Z)
    (tipo_ingreso usuario : string) (ahora : Z)
| LlamaRegistrarSalida (codigo_producto : string) (cantidad : Z)
    (tipo_salida usuario : string) (ahora : Z).

Definition ejecutar (l : Llamada) (s : SistemaInventario)
  : SistemaInventario :=
  match l with
  | LlamaRegistrarProducto c n cat sm prov costo tipo datos =>
      snd (registrar_producto c n cat sm prov costo tipo datos s)
  | LlamaRegistrarIngreso c q tipo u ahora =>
      snd (registrar_ingreso c q tipo u ahora s)
  | LlamaRegistrarSalida c q tipo u ahora =>
      snd (registrar_salida c q tipo u ahora s)
  end.

Definition ejecutar_todas (ls : list Llamada) (s : SistemaInventario)
  : SistemaInventario :=
  fold_left (fun s l => ejecutar l s) ls s.

(** The product object after a movement [m] of signed quantity [delta]
    has been applied to it and recorded in it. *)
Definition tras_movimiento (p : Producto) (delta : Z) (m : Movimiento)
  : Producto :=
  agregar_movimiento (actualizar_stock p delta) m.

(** A call that is not an inbound movement of a negative quantity. *)
Definition ingreso_no_negativo (l : Llamada) : bool :=
  match l with
  | LlamaRegistrarIngreso _ q _ _ _ => 0 <=? q
  | _ => true
  end.

(** Every product's stock is at least zero. *)
Definition stock_no_negativo (s : SistemaInventario) : Prop :=
  forall c p, obtener c (sis_productos s) = Some p -> 0 <= stock_actual p.

(** Every product is stored under its own code. *)
Definition claves_son_codigos (s : SistemaInventario) : Prop :=
  forall c p, obtener c (sis_productos s) = Some p -> codigo p = c.

(** [datos_extra] carries what [tipo_producto] requires. *)
Definition datos_validos (tipo_producto : string)
    (datos_extra : option DatosExtra) : bool :=
  if (tipo_producto =? "nacional")%string then
    es_some (leer_region_origen datos_extra)
  else if (tipo_producto =? "importado")%string then
    es_some (leer_impuesto datos_extra)
  else false.

End Llamadas.

(** ** The history filter in the words of the specification

    Every filter that is supplied must hold, a filter that is omitted
    holds of every movement, and the time range includes both bounds. *)
Definition pasa_filtros_spec (codigo_producto : option string)
    (fecha_inicio fecha_fin : option Z) (m : Movimiento) : bool :=
  match codigo_producto with
  | Some c => (mov_producto_codigo m =? c)%string
  | None => true
  end
  && match fecha_inicio with
     | Some f => f <=? mov_fecha m
     | None => true
     end
  && match fecha_fin with
     | Some f => mov_fecha m <=? f
     | None => true
     end.

Definition movement_history_spec (registro : list Movimiento)
    (codigo_producto : option string) (fecha_inicio fecha_fin : option Z)
  : list Movimiento :=
  filter (pasa_filtros_spec codigo_producto fecha_inicio fecha_fin) registro.

(** The same, with an empty product code counted as omitted. *)
Definition codigo_dado (codigo_producto : option string) : option string :=
  match codigo_producto with
  | Some c => if verdadero c then Some c else None
  | None => None
  end.

(** ** The valuation of one product in the words of the specification *)
Definition valuation_spec {N : Numeros} (p : Producto) : num :=
  match clase p with
  | ProductoImportado tax_rate =>
      num_producto
        (num_producto (costo_unitario p) (num_suma (num_de_int 1) tax_rate))
        (num_de_int (stock_actual p))
  | ProductoNacional _ =>
      num_producto (costo_unitario p) (num_de_int (stock_actual p))
  end.

(** ** Example ledgers, over [int] costs *)

Definition datos_nacional (region : string) : option DatosExtra :=
  Some {| de_region_origen := Some region; de_impuesto := None |}.

Definition datos_importado (impuesto : Z) : option DatosExtra :=
  Some {| de_region_origen := None; de_impuesto := Some impuesto |}.

Definition llama_na001 : Llamada :=
  LlamaRegistrarProducto "NA001" "Varilla de Acero Nacional" "Materiales" 50
    (inr "Aceros Peru") 15 "nacional" (datos_nacional "Lima").

Definition llama_im001 : Llamada :=
  LlamaRegistrarProducto "IM001" "Taladro Bosch" "Herramientas" 3
    (inr "Bosch Import") 120 "importado" (datos_importado 2).

(** The product objects of [NA001] and [IM001] as registered, and after
    an inbound purchase of 30 and of 2 units. *)
Definition na001_nuevo : Producto :=
  Producto_init "NA001" "Varilla de Acero Nacional" "Materiales" 50
    (inr "Aceros Peru") 15 (ProductoNacional "Lima").

Definition na001_con_30 : Producto :=
  tras_movimiento na001_nuevo 30
    (crear_movimiento "ingreso_compra" na001_nuevo 30 "Sistema" 1000).

Definition im001_nuevo : Producto :=
  Producto_init "IM001" "Taladro Bosch" "Herramientas" 3
    (inr "Bosch Import") 120 (ProductoImportado 2).

Definition im001_con_2 : Producto :=
  tras_movimiento im001_nuevo 2
    (crear_movimiento "ingreso_compra" im001_nuevo 2 "Sistema" 1001).

(** The two products registered, [NA001] holding 30 units and [IM001] 2. *)
Definition sistema_ejemplo : SistemaInventario :=
  ejecutar_todas
    [ llama_na001; llama_im001;
      LlamaRegistrarIngreso "NA001" 30 "compra" "Sistema" 1000;
      LlamaRegistrarIngreso "IM001" 2 "compra" "Sistema" 1001 ]
    sistema_vacio.

(** [NA001] registered, then an inbound movement of [-5] units. *)
Definition llamadas_ingreso_negativo : list Llamada :=
  [ llama_na001; LlamaRegistrarIngreso "NA001" (-5) "compra" "Sistema" 1000 ].

(** [NA001] registered and stocked, an outbound movement that is refused,
    one of a negative quantity, and one that empties the stock. *)
Definition llamadas_salidas : list Llamada :=
  [ llama_na001;
    LlamaRegistrarIngreso "NA001" 30 "compra" "Sistema" 1000;
    LlamaRegistrarSalida "NA001" 40 "venta" "Sistema" 1001;
    LlamaRegistrarSalida "NA001" (-3) "ajuste" "Sistema" 1002;
    LlamaRegistrarSalida "NA001" 33 "venta" "Sistema" 1003 ].

(** A product registered under the empty code next to [NA001], one inbound
    movement each. *)
Definition sistema_codigo_vacio : SistemaInventario :=
  ejecutar_todas
    [ LlamaRegistrarProducto "" "Sin codigo" "Materiales" 0
        (inr "Aceros Peru") 1 "nacional" (datos_nacional "Lima");
      llama_na001;
      LlamaRegistrarIngreso "" 4 "compra" "Sistema" 1000;
      LlamaRegistrarIngreso "NA001" 30 "compra" "Sistema" 1001 ]
    sistema_vacio.

(** ** Printed output

    The reporting methods print.  A printed text line is kept as the
    string passed to [print]; a table row is kept as the values that are
    formatted into it, and [print(movimiento)] as the movement printed. *)

(** The newline character inside a printed string. *)
Definition nl : string := String (Ascii.ascii_of_nat 10) EmptyString.

(** [s * n] on a string. *)
Fixpoint repetir (s : string) (n : nat) : string :=
  match n with
  | O => EmptyString
  | S n' => (s ++ repetir s n')%string
  end.

Inductive Impreso : Type :=
| Texto (linea : string)
| ImprimeMovimiento (m : Movimiento).

Section Reportes.

Context {N : Numeros}.

(** [Producto.obtener_movimientos]: [list(self.__movimientos)]. *)
Definition obtener_movimientos (p : Producto) : list Movimiento :=
  movimientos p.

(** [Producto.mostrar_alerta_stock]: the lines it prints. *)
Definition mostrar_alerta_stock (p : Producto) : list string :=
  if verificar_stock_minimo p then
    [ (nl ++ "--- ALERTA DE STOCK MINIMO ---")%string;
      ("El producto '" ++ nombre p
       ++ "' está por debajo del stock mínimo.")%string;
      ("Stock actual: " ++ str_int (stock_actual p))%string;
      ("Stock mínimo requerido: " ++ str_int (stock_minimo p))%string;
      ("Faltan: " ++ str_int (stock_minimo p - stock_actual p)
       ++ " unidades")%string;
      ("---" ++ repetir "-" 30)%string ]
  else [].

(** *** generar_reporte_stock and mostrar_productos_ordenados *)

(** The values formatted into one row of the stock table. *)
Record FilaStock : Type := {
  fs_codigo : string;
  fs_nombre : string;
  fs_categoria : string;
  fs_stock : Z;
  fs_minimo : Z;
  fs_estado : string;
  fs_tipo : string
}.

Definition fila_stock_de (producto : Producto) : FilaStock :=
  let estado :=
    if verificar_stock_minimo producto then "BAJO" else "OK" in
  let tipo :=
    match clase producto with
    | ProductoNacional _ => "NACIONAL"
    | ProductoImportado _ => "IMPORTADO"
    end in
  {| fs_codigo := codigo producto;
     fs_nombre := nombre producto;
     fs_categoria := categoria producto;
     fs_stock := stock_actual producto;
     fs_minimo := stock_minimo producto;
     fs_estado := estado;
     fs_tipo := tipo |}.

(** The loop the two listings share, word for word: a row is printed for
    each product, and the products under their minimum are collected.
    The banner and the column headings printed before the loop are
    constant text and are left out. *)
Definition listar_productos (productos : list Producto)
  : list FilaStock * list Producto :=
  fold_left
    (fun '(filas, productos_bajo_stock) producto =>
       ((filas ++ [fila_stock_de producto])%list,
        if verificar_stock_minimo producto
        then (productos_bajo_stock ++ [producto])%list
        else productos_bajo_stock))
    productos ([], []).

(** The closing section of the two listings, printed only when some
    product is under its minimum. *)
Definition avisos_bajo_stock (productos_bajo_stock : list Producto)
  : list string :=
  match productos_bajo_stock with
  | [] => []
  | _ :: _ =>
      (nl ++ "--- PRODUCTOS CON STOCK BAJO MINIMO ---")%string
      :: map (fun producto =>
                ("• " ++ nombre producto ++ ": Stock actual "
                 ++ str_int (stock_actual producto) ++ " (Mínimo: "
                 ++ str_int (stock_minimo producto) ++ ")")%string)
             productos_bajo_stock
  end.

Definition generar_reporte_stock (s : SistemaInventario)
  : list FilaStock * list string :=
  let '(filas, productos_bajo_stock) :=
    listar_productos (valores (sis_productos s)) in
  (filas, avisos_bajo_stock productos_bajo_stock).

(** [sorted(..., key=lambda x: x.nombre)]: Python's sort is stable and
    orders strings lexicographically, so its result is the one list that
    is in non-decreasing order of name and keeps products of equal name
    in their original order; insertion from the right computes it. *)
Fixpoint insertar_por_nombre (x : Producto) (l : list Producto)
  : list Producto :=
  match l with
  | [] => [x]
  | y :: l' =>
      if (nombre x <=? nombre y)%string then x :: l
      else y :: insertar_por_nombre x l'
  end.

Definition sorted_por_nombre (l : list Producto) : list Producto :=
  fold_right insertar_por_nombre [] l.

Definition mostrar_productos_ordenados (s : SistemaInventario)
  : list FilaStock * list string :=
  let productos_ordenados := sorted_por_nombre (valores (sis_productos s)) in
  let '(filas, productos_bajo_stock) :=
    listar_productos productos_ordenados in
  (filas, avisos_bajo_stock productos_bajo_stock).

(** Two rows, and two products, in non-decreasing order of name. *)
Definition fila_leb (a b : FilaStock) : Prop :=
  (fs_nombre a <=? fs_nombre b)%string = true.

Definition nombre_leb (p q : Producto) : Prop :=
  (nombre p <=? nombre q)%string = true.

(** *** mostrar_historial

    A [Producto] object is always true, so [producto.nombre if producto
    else codigo_producto] falls back to the code only when [get] found
    nothing. *)
Definition mostrar_historial (s : SistemaInventario)
    (codigo_producto : option string) : list Impreso :=
  let historial :=
    obtener_historial_movimientos s codigo_producto None None in
  let titulo_completo := "HISTORIAL COMPLETO DE MOVIMIENTOS" in
  let titulo :=
    match codigo_producto with
    | Some c =>
        if verdadero c then
          ("HISTORIAL DE MOVIMIENTOS - "
           ++ match obtener c (sis_productos s) with
              | Some producto => nombre producto
              | None => c
              end)%string
        else titulo_completo
    | None => titulo_completo
    end in
  Texto (nl ++ titulo)
  :: Texto (repetir "=" 80)
  :: match historial with
     | [] => [Texto "No hay movimientos registrados"]
     | _ :: _ => map ImprimeMovimiento historial
     end.

(** ** Consistency of a ledger state *)

(** The sum of the signed quantities of a list of movements. *)
Definition suma_cantidades (l : list Movimiento) : Z :=
  fold_right (fun m total => mov_cantidad m + total) 0 l.

(** The movements of the product of code [c] in a log. *)
Definition movimientos_de (c : string) (registro : list Movimiento)
  : list Movimiento :=
  filter (fun m => (mov_producto_codigo m =? c)%string) registro.

(** The data a product is registered with. *)
Definition mismos_datos (p p' : Producto) : Prop :=
  codigo p' = codigo p /\ nombre p' = nombre p
  /\ categoria p' = categoria p /\ stock_minimo p' = stock_minimo p
  /\ proveedor p' = proveedor p /\ costo_unitario p' = costo_unitario p
  /\ clase p' = clase p.

Record consistente (s : SistemaInventario) : Prop := {
  con_claves_unicas : NoDup (claves (sis_productos s));
  con_claves_codigos : claves_son_codigos s;
  con_registrados :
    forall m, In m (sis_movimientos s) ->
              contiene (mov_producto_codigo m) (sis_productos s) = true;
  con_movimientos :
    forall c p, obtener c (sis_productos s) = Some p ->
                movimientos p = movimientos_de c (sis_movimientos s);
  con_stock :
    forall c p, obtener c (sis_productos s) = Some p ->
                stock_actual p = suma_cantidades (movimientos p)
}.

(** The three ways in which one call can change the ledger: not at all,
    by storing a new product without stock or movements under a free
    code, or by recording one movement against a registered product. *)
Inductive paso (s : SistemaInventario) : SistemaInventario -> Prop :=
| paso_nada : paso s s
| paso_alta (c : string) (p : Producto) :
    obtener c (sis_productos s) = None ->
    codigo p = c -> stock_actual p = 0 -> movimientos p = [] ->
    paso s {| sis_productos := asignar c p (sis_productos s);
              sis_movimientos := sis_movimientos s |}
| paso_movimiento (c : string) (p : Producto) (m : Movimiento) :
    obtener c (sis_productos s) = Some p ->
    mov_producto_codigo m = codigo p ->
    paso s {| sis_productos :=
                asignar c (tras_movimiento p (mov_cantidad m) m)
                  (sis_productos s);
              sis_movimientos := (sis_movimientos s ++ [m])%list |}.

(** Whether a call raises. *)
Definition es_lanza {A : Type} (r : Resultado A) : bool :=
  match r with Lanza _ => true | Devuelve _ => false end.

Definition lanza (l : Llamada) (s : SistemaInventario) : bool :=
  match l with
  | LlamaRegistrarProducto c n cat sm prov costo tipo datos =>
      es_lanza (fst (registrar_producto c n cat sm prov costo tipo datos s))
  | LlamaRegistrarIngreso c q tipo u ahora =>
      es_lanza (fst (registrar_ingreso c q tipo u ahora s))
  | LlamaRegistrarSalida c q tipo u ahora =>
      es_lanza (fst (registrar_salida c q tipo u ahora s))
  end.

End Reportes.

(** The product object of [NA009] in the example below, after its one
    inbound movement. *)
Definition na009_con_7 : Producto :=
  let nuevo :=
    Producto_init "NA009" "Varilla de Acero Nacional" "Materiales" 5
      (inr "Aceros SAC") 9 (ProductoNacional "Cusco") in
  tras_movimiento nuevo 7
    (crear_movimiento "ingreso_compra" nuevo 7 "Sistema" 1000).

(** Example calls: a second product named like [NA001] but registered
    later, and one whose name sorts first. *)
Definition llamadas_nombres : list Llamada :=
  [ llama_im001; llama_na001;
    LlamaRegistrarProducto "NA009" "Varilla de Acero Nacional" "Materiales"
      5 (inr "Aceros SAC") 9 "nacional" (datos_nacional "Cusco");
    LlamaRegistrarProducto "NA000" "Alambre" "Materiales"
      0 (inr "Aceros SAC") 1 "nacional" (datos_nacional "Lima");
    LlamaRegistrarIngreso "NA009" 7 "compra" "Sistema" 1000 ].

(** * Properties *)

(** ** Strings *)

Lemma prefix_append (s t : string) : prefix s (s ++ t) = true.
Proof.
  induction s as [| a s IH]; simpl.
  - now destruct t.
  - destruct (Ascii.ascii_dec a a) as [_ | Hne]; [exact IH | now elim Hne].
Qed.

Lemma en_append_r (sub pre : string) :
  forall s, en sub s = true -> en sub (pre ++ s) = true.
Proof.
  induction pre as [| a pre IH]; intros s Hs; simpl.
  - exact Hs.
  - rewrite (IH s Hs). apply orb_true_r.
Qed.

Lemma en_prefix (sub s : string) : prefix sub s = true -> en sub s = true.
Proof. intros H. destruct s; simpl in *; now rewrite H. Qed.

Lemma en_medio (pre sub post : string) : en sub (pre ++ sub ++ post) = true.
Proof. apply en_append_r, en_prefix, prefix_append. Qed.

Lemma append_vacio (s : string) : (s ++ "")%string = s.
Proof. induction s as [| a s IH]; simpl; [reflexivity | now rewrite IH]. Qed.

Lemma append_asoc (s t u : string) :
  ((s ++ t) ++ u)%string = (s ++ (t ++ u))%string.
Proof. induction s as [| a s IH]; simpl; [reflexivity | now rewrite IH]. Qed.

Lemma en_final (pre sub : string) : en sub (pre ++ sub) = true.
Proof. rewrite <- (append_vacio sub) at 2. apply en_medio. Qed.

(** ** Dictionaries *)

Section DictLemmas.
Context {V : Type}.
Implicit Types (d : dict V) (k : string) (v : V).

Lemma obtener_asignar k k' v d :
  obtener k (asignar k' v d) =
  if (k =? k')%string then Some v else obtener k d.
Proof.
  induction d as [| [k0 v0] d IH]; simpl.
  - reflexivity.
  - destruct (String.eqb_spec k' k0) as [-> | Hne]; simpl.
    + destruct (String.eqb_spec k k0); reflexivity.
    + rewrite IH.
      destruct (String.eqb_spec k k0) as [-> | Hne'];
        [| reflexivity].
      destruct (String.eqb_spec k0 k') as [<- | _];
        [now elim Hne | reflexivity].
Qed.

Lemma obtener_asignar_eq k v d : obtener k (asignar k v d) = Some v.
Proof. now rewrite obtener_asignar, String.eqb_refl. Qed.

Lemma obtener_asignar_neq k k' v d :
  k <> k' -> obtener k (asignar k' v d) = obtener k d.
Proof.
  intros Hne. rewrite obtener_asignar.
  now destruct (String.eqb_spec k k').
Qed.

Lemma asignar_asignar k v v' d :
  asignar k v' (asignar k v d) = asignar k v' d.
Proof.
  induction d as [| [k0 v0] d IH]; simpl.
  - now rewrite String.eqb_refl.
  - destruct (String.eqb_spec k k0) as [-> | Hne]; simpl.
    + now rewrite String.eqb_refl.
    + destruct (String.eqb_spec k k0); [contradiction | now rewrite IH].
Qed.

Lemma contiene_false k d : contiene k d = false -> obtener k d = None.
Proof. unfold contiene. now destruct (obtener k d). Qed.

Lemma contiene_true k d v : obtener k d = Some v -> contiene k d = true.
Proof. unfold contiene. now intros ->. Qed.
End DictLemmas.

(** ** What each operation returns and leaves behind *)

Section Operaciones.

Context {N : Numeros}.
Implicit Types (s : SistemaInventario) (p : Producto) (m : Movimiento).

Lemma registrar_ingreso_no_encontrado s c q tipo u ahora :
  obtener c (sis_productos s) = None ->
  registrar_ingreso c q tipo u ahora s =
  (Lanza (ProductoNoEncontrado
            ("Error: Producto con codigo '" ++ c ++ "' no encontrado")), s).
Proof.
  intros H. unfold registrar_ingreso, bind, leer. now rewrite H.
Qed.

Lemma registrar_ingreso_devuelve s c p q tipo u ahora :
  obtener c (sis_productos s) = Some p ->
  let m := crear_movimiento ("ingreso_" ++ tipo) p q u ahora in
  registrar_ingreso c q tipo u ahora s =
  (Devuelve m,
   {| sis_productos := asignar c (tras_movimiento p q m) (sis_productos s);
      sis_movimientos := sis_movimientos s ++ [m] |}).
Proof.
  intros H m.
  unfold registrar_ingreso, bind, leer. rewrite H.
  unfold anotar_movimiento, mutar_producto, guardar_producto, ret.
  cbn [sis_productos sis_movimientos].
  rewrite H. cbn [sis_productos sis_movimientos].
  rewrite obtener_asignar_eq. cbn [sis_productos sis_movimientos].
  now rewrite asignar_asignar.
Qed.

Lemma registrar_salida_no_encontrado s c q tipo u ahora :
  obtener c (sis_productos s) = None ->
  registrar_salida c q tipo u ahora s =
  (Lanza (ProductoNoEncontrado
            ("Error: Producto con codigo '" ++ c ++ "' no encontrado")), s).
Proof.
  intros H. unfold registrar_salida, bind, leer. now rewrite H.
Qed.

Lemma registrar_salida_insuficiente s c p q tipo u ahora :
  obtener c (sis_productos s) = Some p ->
  stock_actual p < q ->
  registrar_salida c q tipo u ahora s =
  (Lanza (StockInsuficiente
            ("Error: Stock insuficiente para '" ++ nombre p ++ "'. "
             ++ "Stock actual: " ++ str_int (stock_actual p)
             ++ ", Solicitado: " ++ str_int q)), s).
Proof.
  intros H Hlt. unfold registrar_salida, bind, leer. rewrite H.
  now rewrite (proj2 (Z.ltb_lt _ _) Hlt).
Qed.

Lemma registrar_salida_devuelve s c p q tipo u ahora :
  obtener c (sis_productos s) = Some p ->
  q <= stock_actual p ->
  let m := crear_movimiento ("salida_" ++ tipo) p (- q) u ahora in
  registrar_salida c q tipo u ahora s =
  (Devuelve m,
   {| sis_productos :=
        asignar c (tras_movimiento p (- q) m) (sis_productos s);
      sis_movimientos := sis_movimientos s ++ [m] |}).
Proof.
  intros H Hle m.
  unfold registrar_salida, bind, leer. rewrite H.
  rewrite (proj2 (Z.ltb_ge _ _) Hle).
  unfold anotar_movimiento, mutar_producto, guardar_producto, ret.
  cbn [sis_productos sis_movimientos].
  rewrite H. cbn [sis_productos sis_movimientos].
  rewrite obtener_asignar_eq. cbn [sis_productos sis_movimientos].
  now rewrite asignar_asignar.
Qed.

Lemma registrar_producto_duplicado s c n cat sm prov costo tipo datos :
  contiene c (sis_productos s) = true ->
  registrar_producto c n cat sm prov costo tipo datos s =
  (Lanza (CodigoDuplicado
            ("Error: El codigo '" ++ c ++ "' ya existe en el sistema")), s).
Proof.
  intros H. unfold registrar_producto, bind, leer. now rewrite H.
Qed.

(** Whatever the arguments, [registrar_producto] either leaves the state
    as it was or stores one new product, with no stock, under a code
    that was free. *)
Lemma registrar_producto_estado s c n cat sm prov costo tipo datos :
  let s' := snd (registrar_producto c n cat sm prov costo tipo datos s) in
  s' = s \/
  (obtener c (sis_productos s) = None /\
   exists cl,
     s' = {| sis_productos :=
               asignar c (Producto_init c n cat sm prov costo cl)
                 (sis_productos s);
             sis_movimientos := sis_movimientos s |}).
Proof.
  unfold registrar_producto, bind, leer.
  destruct (contiene c (sis_productos s)) eqn:Hc; [now left |].
  apply contiene_false in Hc.
  destruct (tipo =? "nacional")%string.
  - destruct (leer_region_origen datos) as [r |]; [| now left].
    right. split; [exact Hc |]. now exists (ProductoNacional r).
  - destruct (tipo =? "importado")%string; [| now left].
    destruct (leer_impuesto datos) as [i |]; [| now left].
    right. split; [exact Hc |]. now exists (ProductoImportado i).
Qed.

Lemma registrar_producto_devuelve s c n cat sm prov costo tipo datos :
  obtener c (sis_productos s) = None ->
  datos_validos tipo datos = true ->
  exists cl,
    registrar_producto c n cat sm prov costo tipo datos s =
    (Devuelve (Producto_init c n cat sm prov costo cl),
     {| sis_productos :=
          asignar c (Producto_init c n cat sm prov costo cl)
            (sis_productos s);
        sis_movimientos := sis_movimientos s |}).
Proof.
  intros Hc Hv. unfold registrar_producto, bind, leer.
  unfold contiene. rewrite Hc. unfold datos_validos in Hv.
  destruct (tipo =? "nacional")%string.
  - destruct (leer_region_origen datos) as [r |]; [| discriminate].
    now exists (ProductoNacional r).
  - destruct (tipo =? "importado")%string; [| discriminate].
    destruct (leer_impuesto datos) as [i |]; [| discriminate].
    now exists (ProductoImportado i).
Qed.

End Operaciones.

(** ** Invariants of the reachable states *)

Section Invariantes.

Context {N : Numeros}.
Implicit Types (s : SistemaInventario) (l : Llamada).

Lemma ejecutar_stock_no_negativo l s :
  ingreso_no_negativo l = true ->
  stock_no_negativo s -> stock_no_negativo (ejecutar l s).
Proof.
  intros Hl Hs.
  destruct l as [c n cat sm prov costo tipo datos
                | c q tipo u ahora | c q tipo u ahora]; cbn [ejecutar].
  - destruct (registrar_producto_estado s c n cat sm prov costo tipo datos)
      as [-> | [_ [cl ->]]]; [exact Hs |].
    intros c0 p0. cbn [sis_productos]. rewrite obtener_asignar.
    destruct (c0 =? c)%string; [| apply Hs].
    intros [= <-]. cbn. lia.
  - cbn in Hl. apply Z.leb_le in Hl.
    destruct (obtener c (sis_productos s)) as [p |] eqn:Hp.
    + rewrite (registrar_ingreso_devuelve s c p q tipo u ahora Hp).
      intros c0 p0. cbn [snd sis_productos]. rewrite obtener_asignar.
      destruct (c0 =? c)%string; [| apply Hs].
      intros [= <-]. cbn. specialize (Hs c p Hp). lia.
    + now rewrite registrar_ingreso_no_encontrado.
  - destruct (obtener c (sis_productos s)) as [p |] eqn:Hp.
    + destruct (Z.lt_ge_cases (stock_actual p) q) as [Hlt | Hge].
      * now rewrite (registrar_salida_insuficiente s c p q tipo u ahora Hp).
      * rewrite (registrar_salida_devuelve s c p q tipo u ahora Hp Hge).
        intros c0 p0. cbn [snd sis_productos]. rewrite obtener_asignar.
        destruct (c0 =? c)%string; [| apply Hs].
        intros [= <-]. cbn. lia.
    + now rewrite registrar_salida_no_encontrado.
Qed.

Lemma ejecutar_claves_son_codigos l s :
  claves_son_codigos s -> claves_son_codigos (ejecutar l s).
Proof.
  intros Hs.
  destruct l as [c n cat sm prov costo tipo datos
                | c q tipo u ahora | c q tipo u ahora]; cbn [ejecutar].
  - destruct (registrar_producto_estado s c n cat sm prov costo tipo datos)
      as [-> | [_ [cl ->]]]; [exact Hs |].
    intros c0 p0. cbn [sis_productos]. rewrite obtener_asignar.
    destruct (String.eqb_spec c0 c) as [-> |]; [| apply Hs].
    now intros [= <-].
  - destruct (obtener c (sis_productos s)) as [p |] eqn:Hp.
    + rewrite (registrar_ingreso_devuelve s c p q tipo u ahora Hp).
      intros c0 p0. cbn [snd sis_productos]. rewrite obtener_asignar.
      destruct (String.eqb_spec c0 c) as [-> |]; [| apply Hs].
      intros [= <-]. cbn. now apply Hs.
    + now rewrite registrar_ingreso_no_encontrado.
  - destruct (obtener c (sis_productos s)) as [p |] eqn:Hp.
    + destruct (Z.lt_ge_cases (stock_actual p) q) as [Hlt | Hge].
      * now rewrite (registrar_salida_insuficiente s c p q tipo u ahora Hp).
      * rewrite (registrar_salida_devuelve s c p q tipo u ahora Hp Hge).
        intros c0 p0. cbn [snd sis_productos]. rewrite obtener_asignar.
        destruct (String.eqb_spec c0 c) as [-> |]; [| apply Hs].
        intros [= <-]. cbn. now apply Hs.
    + now rewrite registrar_salida_no_encontrado.
Qed.

Lemma ejecutar_todas_stock_no_negativo (ls : list Llamada) :
  forall s,
    Forall (fun l => ingreso_no_negativo l = true) ls ->
    stock_no_negativo s -> stock_no_negativo (ejecutar_todas ls s).
Proof.
  induction ls as [| l ls IH]; intros s Hls Hs; cbn.
  - exact Hs.
  - inversion Hls as [| ? ? Hl Hls']; subst.
    apply IH; [exact Hls' |]. now apply ejecutar_stock_no_negativo.
Qed.

(** In every state the ledger can reach, each product is stored under
    its own code. *)
Lemma alcanzable_claves_son_codigos (ls : list Llamada) :
  claves_son_codigos (ejecutar_todas ls sistema_vacio).
Proof.
  assert (H : forall s, claves_son_codigos s ->
                        claves_son_codigos (ejecutar_todas ls s)).
  { induction ls as [| l ls IH]; intros s Hs; cbn; [exact Hs |].
    apply IH. now apply ejecutar_claves_son_codigos. }
  apply H. intros c p. discriminate.
Qed.

End Invariantes.

(** ** Stock levels along call sequences *)

(** C1, as the claim states it, fails: [registrar_ingreso] takes any
    quantity, and after [NA001] is registered an inbound movement of [-5]
    units leaves its stock at [-5]. *)
Lemma negative_inbound_makes_stock_negative :
  ~ (forall c p,
        obtener c
          (sis_productos
             (ejecutar_todas llamadas_ingreso_negativo sistema_vacio))
        = Some p ->
        0 <= stock_actual p).
Proof.
  intros H. specialize (H "NA001").
  vm_compute in H. specialize (H _ eq_refl). now apply H.
Qed.

(** C1 (amended): in every state reached from the empty ledger by calls of
    [registrar_producto], [registrar_ingreso] and [registrar_salida] in
    which no inbound quantity is negative (outbound quantities are
    arbitrary integers), every registered product has a stock of at least
    zero. *)
Theorem stock_never_negative_without_negative_inbound
    `{Numeros} (llamadas : list Llamada) :
  Forall (fun l => ingreso_no_negativo l = true) llamadas ->
  forall c p,
    obtener c (sis_productos (ejecutar_todas llamadas sistema_vacio))
    = Some p ->
    0 <= stock_actual p.
Proof.
  intros Hls.
  apply (ejecutar_todas_stock_no_negativo llamadas sistema_vacio Hls).
  intros c p. discriminate.
Qed.

Lemma stock_never_negative_without_negative_inbound_witness :
  Forall (fun l => ingreso_no_negativo l = true) llamadas_salidas
  /\ exists p,
       obtener "NA001"
         (sis_productos (ejecutar_todas llamadas_salidas sistema_vacio))
       = Some p
       /\ 0 <= stock_actual p.
Proof.
  assert (H : Forall (fun l => ingreso_no_negativo l = true)
                llamadas_salidas)
    by (repeat constructor).
  split; [exact H |].
  eexists. split; [vm_compute; reflexivity |].
  apply (stock_never_negative_without_negative_inbound
           llamadas_salidas H "NA001").
  reflexivity.
Defined.

(** ** registrar_salida without enough stock *)

(** C2: when the product is registered and its stock is below the
    requested quantity, [registrar_salida] raises [StockInsuficiente], the
    message shows the current stock and the requested quantity, and the
    ledger is left exactly as it was: no movement in the global log or in
    the product's list, and the stock untouched. *)
Theorem registrar_salida_insufficient_stock
    `{Numeros} (s : SistemaInventario) (c : string) (p : Producto) (q : Z)
    (tipo usuario : string) (ahora : Z) :
  obtener c (sis_productos s) = Some p ->
  stock_actual p < q ->
  exists mensaje,
    registrar_salida c q tipo usuario ahora s
    = (Lanza (StockInsuficiente mensaje), s)
    /\ (exists inicio,
          mensaje = (inicio ++ "Stock actual: " ++ str_int (stock_actual p)
                     ++ ", Solicitado: " ++ str_int q)%string)
    /\ en (str_int (stock_actual p)) mensaje = true
    /\ en (str_int q) mensaje = true.
Proof.
  intros Hp Hlt. eexists. split; [| split; [| split]].
  - apply (registrar_salida_insuficiente s c p q tipo usuario ahora Hp Hlt).
  - exists ("Error: Stock insuficiente para '" ++ nombre p ++ "'. ")%string.
    now rewrite !append_asoc.
  - do 4 apply en_append_r. apply en_prefix, prefix_append.
  - do 5 apply en_append_r. apply en_final.
Qed.

Lemma registrar_salida_insufficient_stock_witness :
  exists mensaje,
    registrar_salida "NA001" 40 "venta" "Sistema" 2000 sistema_ejemplo
    = (Lanza (StockInsuficiente mensaje), sistema_ejemplo)
    /\ (exists inicio,
          mensaje = (inicio ++ "Stock actual: " ++ "30"
                     ++ ", Solicitado: " ++ "40")%string)
    /\ en "30" mensaje = true
    /\ en "40" mensaje = true.
Proof.
  refine (registrar_salida_insufficient_stock sistema_ejemplo "NA001"
            na001_con_30 40 "venta" "Sistema" 2000 _ _).
  - reflexivity.
  - reflexivity.
Defined.

(** ** registrar_ingreso *)

(** C3, as the claim states it, fails: [registrar_ingreso] does not look
    at the sign of the quantity.  With [NA001] holding 30 units, an
    inbound movement of [-5] returns a movement, logs it, and takes the
    stock to 25. *)
Lemma registrar_ingreso_accepts_nonpositive_quantity :
  exists m s' p',
    registrar_ingreso "NA001" (-5) "compra" "Sistema" 2000 sistema_ejemplo
    = (Devuelve m, s')
    /\ sis_movimientos s' = (sis_movimientos sistema_ejemplo ++ [m])%list
    /\ obtener "NA001" (sis_productos s') = Some p'
    /\ stock_actual p' = 25
    /\ s' <> sistema_ejemplo.
Proof.
  do 3 eexists.
  split; [vm_compute; reflexivity |].
  split; [reflexivity |].
  split; [vm_compute; reflexivity |].
  split; [reflexivity |].
  vm_compute. discriminate.
Qed.

(** C3 (amended): for every registered product and every quantity
    [q <= 0], [registrar_ingreso] validates nothing about [q] and behaves
    as for any other quantity: it returns a movement of quantity [q],
    appends it to the global log and to the product's list, and adds [q]
    to the stock. *)
Theorem registrar_ingreso_nonpositive_quantity_recorded
    `{Numeros} (s : SistemaInventario) (c : string) (p : Producto) (q : Z)
    (tipo usuario : string) (ahora : Z) :
  obtener c (sis_productos s) = Some p ->
  q <= 0 ->
  exists m s' p',
    registrar_ingreso c q tipo usuario ahora s = (Devuelve m, s')
    /\ mov_cantidad m = q
    /\ sis_movimientos s' = (sis_movimientos s ++ [m])%list
    /\ obtener c (sis_productos s') = Some p'
    /\ movimientos p' = (movimientos p ++ [m])%list
    /\ stock_actual p' = stock_actual p + q.
Proof.
  intros Hp _.
  do 3 eexists. split.
  - apply (registrar_ingreso_devuelve s c p q tipo usuario ahora Hp).
  - cbn [sis_movimientos sis_productos]. rewrite obtener_asignar_eq.
    repeat split.
Qed.

Lemma registrar_ingreso_nonpositive_quantity_recorded_witness :
  exists m s' p',
    registrar_ingreso "IM001" 0 "ajuste" "Sistema" 2000 sistema_ejemplo
    = (Devuelve m, s')
    /\ mov_cantidad m = 0
    /\ sis_movimientos s' = (sis_movimientos sistema_ejemplo ++ [m])%list
    /\ obtener "IM001" (sis_productos s') = Some p'
    /\ List.length (movimientos p') = 2%nat
    /\ stock_actual p' = 2.
Proof.
  destruct (registrar_ingreso_nonpositive_quantity_recorded sistema_ejemplo
              "IM001" im001_con_2 0 "ajuste" "Sistema" 2000 eq_refl)
    as (m & s' & p' & H1 & H2 & H3 & H4 & H5 & H6).
  - discriminate.
  - exists m, s', p'. rewrite H5, H6. repeat split; assumption.
Defined.

(** C4: for a registered product of code [c] and a quantity [q > 0],
    [registrar_ingreso c q] returns a movement, the product's stock grows
    by exactly [q], the history of [c] grows by exactly one entry, that
    movement, whose quantity is [q], and every other product is as it
    was. *)
Theorem registrar_ingreso_adds_quantity
    `{Numeros} (s : SistemaInventario) (c : string) (p : Producto) (q : Z)
    (tipo usuario : string) (ahora : Z) :
  obtener c (sis_productos s) = Some p ->
  codigo p = c ->
  0 < q ->
  exists m s' p',
    registrar_ingreso c q tipo usuario ahora s = (Devuelve m, s')
    /\ obtener c (sis_productos s') = Some p'
    /\ stock_actual p' = stock_actual p + q
    /\ obtener_historial_movimientos s' (Some c) None None
       = (obtener_historial_movimientos s (Some c) None None ++ [m])%list
    /\ mov_cantidad m = q
    /\ forall c', c' <> c ->
         obtener c' (sis_productos s') = obtener c' (sis_productos s).
Proof.
  intros Hp Hc _.
  do 3 eexists. split.
  - apply (registrar_ingreso_devuelve s c p q tipo usuario ahora Hp).
  - cbn [sis_movimientos sis_productos]. rewrite obtener_asignar_eq.
    repeat split.
    + unfold obtener_historial_movimientos. cbn [sis_movimientos].
      destruct (verdadero c); [| reflexivity].
      rewrite filter_app. cbn. rewrite Hc, String.eqb_refl. reflexivity.
    + intros c' Hne. now apply obtener_asignar_neq.
Qed.

Lemma registrar_ingreso_adds_quantity_witness :
  exists m s' p',
    registrar_ingreso "NA001" 25 "compra" "Sistema" 2000 sistema_ejemplo
    = (Devuelve m, s')
    /\ obtener "NA001" (sis_productos s') = Some p'
    /\ stock_actual p' = stock_actual na001_con_30 + 25
    /\ obtener_historial_movimientos s' (Some "NA001") None None
       = (obtener_historial_movimientos sistema_ejemplo (Some "NA001")
            None None ++ [m])%list
    /\ mov_cantidad m = 25
    /\ forall c', c' <> "NA001" ->
         obtener c' (sis_productos s')
         = obtener c' (sis_productos sistema_ejemplo).
Proof.
  refine (registrar_ingreso_adds_quantity sistema_ejemplo "NA001"
            na001_con_30 25 "compra" "Sistema" 2000 _ _ _);
    reflexivity.
Defined.

(** ** registrar_salida with enough stock *)

(** C5: for a registered product and a quantity [q] with
    [0 < q <= stock], [registrar_salida] returns a movement, the stock
    falls by exactly [q], and the global log grows by that one movement,
    whose quantity is [-q]: the ledger negates the magnitude it was
    given. *)
Theorem registrar_salida_subtracts_quantity
    `{Numeros} (s : SistemaInventario) (c : string) (p : Producto) (q : Z)
    (tipo usuario : string) (ahora : Z) :
  obtener c (sis_productos s) = Some p ->
  0 < q <= stock_actual p ->
  exists m s' p',
    registrar_salida c q tipo usuario ahora s = (Devuelve m, s')
    /\ obtener c (sis_productos s') = Some p'
    /\ stock_actual p' = stock_actual p - q
    /\ sis_movimientos s' = (sis_movimientos s ++ [m])%list
    /\ mov_cantidad m = - q.
Proof.
  intros Hp [_ Hle].
  do 3 eexists. split.
  - apply (registrar_salida_devuelve s c p q tipo usuario ahora Hp Hle).
  - cbn [sis_movimientos sis_productos]. rewrite obtener_asignar_eq.
    repeat split.
Qed.

Lemma registrar_salida_subtracts_quantity_witness :
  exists m s' p',
    registrar_salida "NA001" 30 "venta" "Sistema" 2000 sistema_ejemplo
    = (Devuelve m, s')
    /\ obtener "NA001" (sis_productos s') = Some p'
    /\ stock_actual p' = stock_actual na001_con_30 - 30
    /\ sis_movimientos s' = (sis_movimientos sistema_ejemplo ++ [m])%list
    /\ mov_cantidad m = - 30.
Proof.
  refine (registrar_salida_subtracts_quantity sistema_ejemplo "NA001"
            na001_con_30 30 "venta" "Sistema" 2000 _ _).
  - reflexivity.
  - split; [reflexivity | discriminate].
Defined.

(** ** registrar_producto *)

(** C6: registering a code that is not in the catalog, with the data its
    product type requires, returns the new product and stores it under
    that code with a stock of zero; registering a code that is already in
    the catalog raises [CodigoDuplicado] and leaves the ledger, and so the
    catalog, as it was. *)
Theorem registrar_producto_fresh_and_duplicate
    `{Numeros} (s : SistemaInventario) (c n cat : string) (sm : Z)
    (prov : Proveedor + string) (costo : num) (tipo : string)
    (datos : option DatosExtra) :
  (contiene c (sis_productos s) = false ->
   datos_validos tipo datos = true ->
   exists p s',
     registrar_producto c n cat sm prov costo tipo datos s = (Devuelve p, s')
     /\ obtener c (sis_productos s') = Some p
     /\ stock_actual p = 0)
  /\
  (contiene c (sis_productos s) = true ->
   exists mensaje,
     registrar_producto c n cat sm prov costo tipo datos s
     = (Lanza (CodigoDuplicado mensaje), s)).
Proof.
  split.
  - intros Hc Hv. apply contiene_false in Hc.
    destruct (registrar_producto_devuelve s c n cat sm prov costo tipo datos
                Hc Hv) as [cl Hr].
    do 2 eexists. split; [exact Hr |].
    cbn [sis_productos]. now rewrite obtener_asignar_eq.
  - intros Hc. eexists. now apply registrar_producto_duplicado.
Qed.

Lemma registrar_producto_fresh_and_duplicate_witness :
  (exists p s',
     registrar_producto "NA002" "Tornillo Acero 5mm" "Tornilleria" 100
       (inr "Aceros SAC") 1 "nacional" (datos_nacional "Arequipa")
       sistema_ejemplo
     = (Devuelve p, s')
     /\ obtener "NA002" (sis_productos s') = Some p
     /\ stock_actual p = 0)
  /\
  (exists mensaje,
     registrar_producto "IM001" "Placa Aluminio 2x1m" "Planchas" 10
       (inr "Aluminios Peru") 25 "importado" (datos_importado 1)
       sistema_ejemplo
     = (Lanza (CodigoDuplicado mensaje), sistema_ejemplo)).
Proof.
  split.
  - apply (proj1 (registrar_producto_fresh_and_duplicate sistema_ejemplo
                    "NA002" "Tornillo Acero 5mm" "Tornilleria" 100
                    (inr "Aceros SAC") 1 "nacional"
                    (datos_nacional "Arequipa")));
      reflexivity.
  - apply (proj2 (registrar_producto_fresh_and_duplicate sistema_ejemplo
                    "IM001" "Placa Aluminio 2x1m" "Planchas" 10
                    (inr "Aluminios Peru") 25 "importado"
                    (datos_importado 1)));
      reflexivity.
Defined.

(** ** verificar_stock_minimo *)

(** C7: [verificar_stock_minimo] is true exactly when the stock is at most
    the minimum stock; in particular a stock equal to the minimum counts
    as low. *)
Theorem verificar_stock_minimo_iff `{Numeros} (p : Producto) :
  (verificar_stock_minimo p = true <-> stock_actual p <= stock_minimo p)
  /\ (stock_actual p = stock_minimo p -> verificar_stock_minimo p = true).
Proof.
  unfold verificar_stock_minimo. split.
  - apply Z.leb_le.
  - intros ->. apply Z.leb_refl.
Qed.

Lemma verificar_stock_minimo_iff_witness :
  verificar_stock_minimo
    (actualizar_stock na001_con_30 20) = true.
Proof.
  apply (proj2 (verificar_stock_minimo_iff (actualizar_stock na001_con_30 20))).
  reflexivity.
Defined.

(** ** calcular_valor_inventario *)

Section Valor.

Context {N : Numeros}.

Lemma calcular_valor_inventario_fold (ps : list Producto) :
  forall (filas : list FilaValor) (total : num),
    fold_left
      (fun '(filas, valor_total) producto =>
         let fila := fila_de producto in
         ((filas ++ [fila])%list,
          num_suma valor_total (fila_valor_producto fila)))
      ps (filas, total)
    = ((filas ++ map fila_de ps)%list,
       fold_left num_suma (map fila_valor_producto (map fila_de ps)) total).
Proof.
  induction ps as [| p ps IH]; intros filas total; cbn.
  - now rewrite app_nil_r.
  - rewrite IH, <- app_assoc. reflexivity.
Qed.

(** The loop of [calcular_valor_inventario] prints one row per product,
    in catalog order, and the running sum of the rows' values. *)
Lemma calcular_valor_inventario_filas (s : SistemaInventario) :
  calcular_valor_inventario s
  = (map fila_de (valores (sis_productos s)),
     fold_left num_suma
       (map fila_valor_producto (map fila_de (valores (sis_productos s))))
       (num_de_int 0)).
Proof.
  unfold calcular_valor_inventario.
  now rewrite calcular_valor_inventario_fold.
Qed.

Lemma fila_de_valuation_spec (p : Producto) :
  (forall a b : num, num_producto a b = num_producto b a) ->
  fila_valor_producto (fila_de p) = valuation_spec p.
Proof.
  intros Hconm. unfold fila_de, valuation_spec, costo_con_impuesto.
  cbn [fila_valor_producto].
  destruct (clase p); apply Hconm.
Qed.

End Valor.

(** C8: [calcular_valor_inventario] yields one row per product whose value
    is [unit_cost * (1 + tax_rate) * current_stock] for an imported
    product and [unit_cost * current_stock] for a national one, and a
    total that is the sum of the rows' values, added up in catalog order
    from [0].  The code multiplies the stock by the unit valuation; the
    two readings agree since the product of two numbers does not depend on
    their order. *)
Theorem calcular_valor_inventario_rows_and_total
    `{Numeros} (s : SistemaInventario) :
  (forall a b : num, num_producto a b = num_producto b a) ->
  map fila_valor_producto (fst (calcular_valor_inventario s))
  = map valuation_spec (valores (sis_productos s))
  /\ snd (calcular_valor_inventario s)
     = fold_left num_suma
         (map fila_valor_producto (fst (calcular_valor_inventario s)))
         (num_de_int 0).
Proof.
  intros Hconm. rewrite calcular_valor_inventario_filas. cbn [fst snd].
  split; [| reflexivity].
  rewrite map_map. apply map_ext. intros p.
  now apply fila_de_valuation_spec.
Qed.

Lemma calcular_valor_inventario_rows_and_total_witness :
  map fila_valor_producto (fst (calcular_valor_inventario sistema_ejemplo))
  = [450; 720]
  /\ snd (calcular_valor_inventario sistema_ejemplo) = 1170.
Proof.
  exact (calcular_valor_inventario_rows_and_total sistema_ejemplo Z.mul_comm).
Defined.

(** ** obtener_historial_movimientos *)

Lemma filter_filter {A : Type} (f g : A -> bool) (l : list A) :
  filter g (filter f l) = filter (fun x => f x && g x) l.
Proof.
  induction l as [| a l IH]; cbn; [reflexivity |].
  destruct (f a); cbn; [destruct (g a) |]; now rewrite IH.
Qed.

Lemma filter_true {A : Type} (l : list A) : filter (fun _ => true) l = l.
Proof. induction l as [| a l IH]; cbn; [reflexivity | now rewrite IH]. Qed.

(** C9, as the claim states it, fails on an empty product code: the code
    tests [codigo_producto] for truth, so the empty string is skipped like
    an omitted filter.  With a product registered under the empty code
    next to [NA001], the history asked for the empty code holds the
    movement of [NA001] as well. *)
Lemma historial_empty_code_not_filtered :
  obtener_historial_movimientos sistema_codigo_vacio (Some "") None None
  <> movement_history_spec (sis_movimientos sistema_codigo_vacio)
       (Some "") None None
  /\ List.length
       (obtener_historial_movimientos sistema_codigo_vacio (Some "") None None)
     = 2%nat
  /\ List.length
       (movement_history_spec (sis_movimientos sistema_codigo_vacio)
          (Some "") None None)
     = 1%nat.
Proof.
  split; [vm_compute; discriminate | split; reflexivity].
Qed.

(** C9 (amended): for every movement log and every combination of the
    optional filters, [obtener_historial_movimientos] returns exactly the
    movements of the log that pass all the filters supplied, in the order
    of the log, the time range including both bounds; an omitted filter,
    and also a product code that is the empty string, lets every movement
    through. *)
Theorem obtener_historial_movimientos_filters
    `{Numeros} (s : SistemaInventario) (codigo_producto : option string)
    (fecha_inicio fecha_fin : option Z) :
  obtener_historial_movimientos s codigo_producto fecha_inicio fecha_fin
  = movement_history_spec (sis_movimientos s)
      (codigo_dado codigo_producto) fecha_inicio fecha_fin.
Proof.
  unfold obtener_historial_movimientos, movement_history_spec.
  set (log := sis_movimientos s). clearbody log.
  assert (Hc :
    match codigo_producto with
    | Some c =>
        if verdadero c
        then filter (fun m => (mov_producto_codigo m =? c)%string) log
        else log
    | None => log
    end
    = filter (fun m => match codigo_dado codigo_producto with
                       | Some c => (mov_producto_codigo m =? c)%string
                       | None => true
                       end) log).
  { destruct codigo_producto as [c |]; cbn;
      [destruct (verdadero c) |]; now rewrite ?filter_true. }
  rewrite Hc. clear Hc.
  destruct fecha_inicio as [fi |], fecha_fin as [ff |];
    rewrite ?filter_filter; apply filter_ext; intros m;
    unfold pasa_filtros_spec;
    rewrite ?andb_true_r, ?Z.geb_leb, ?andb_assoc; reflexivity.
Qed.

(** ** buscar_producto *)

(** C10: with a criterion other than ["codigo"], ["nombre"] and
    ["categoria"], [buscar_producto] returns the empty list, whatever the
    catalog and the value searched for. *)
Theorem buscar_producto_unknown_criterion
    `{Numeros} (lower : string -> string) (s : SistemaInventario)
    (criterio valor : string) :
  criterio <> "codigo" ->
  criterio <> "nombre" ->
  criterio <> "categoria" ->
  buscar_producto lower s criterio valor = [].
Proof.
  intros H1 H2 H3. unfold buscar_producto.
  assert (Hno : forall p, coincide lower criterio valor p = false).
  { intros p. unfold coincide.
    destruct (String.eqb_spec criterio "codigo"); [contradiction |].
    destruct (String.eqb_spec criterio "nombre"); [contradiction |].
    destruct (String.eqb_spec criterio "categoria"); [contradiction |].
    reflexivity. }
  induction (valores (sis_productos s)) as [| p ps IH]; cbn.
  - reflexivity.
  - now rewrite Hno.
Qed.

Lemma buscar_producto_unknown_criterion_witness :
  buscar_producto (fun x => x) sistema_ejemplo "proveedor" "Bosch" = [].
Proof.
  apply buscar_producto_unknown_criterion; discriminate.
Defined.


(** * Further properties of the ledger *)

(** ** Dictionaries, continued *)

Section DictLemmas2.
Context {V : Type}.
Implicit Types (d : dict V) (k : string) (v : V).

Lemma obtener_None_claves k d : obtener k d = None -> ~ In k (claves d).
Proof.
  induction d as [| [k0 v0] d IH]; cbn; [tauto |].
  destruct (String.eqb_spec k k0) as [-> | Hne]; [discriminate |].
  intros H [Heq | Hin]; [now elim Hne | now apply IH].
Qed.

Lemma obtener_Some_valores k d v : obtener k d = Some v -> In v (valores d).
Proof.
  induction d as [| [k0 v0] d IH]; cbn; [discriminate |].
  destruct (k =? k0)%string; [intros [= ->]; now left | right; now apply IH].
Qed.

Lemma asignar_nuevo k v d :
  obtener k d = None -> asignar k v d = (d ++ [(k, v)])%list.
Proof.
  induction d as [| [k0 v0] d IH]; cbn; [reflexivity |].
  destruct (k =? k0)%string; [discriminate |].
  intros H. now rewrite IH.
Qed.

Lemma claves_asignar_presente k v v' d :
  obtener k d = Some v' -> claves (asignar k v d) = claves d.
Proof.
  induction d as [| [k0 v0] d IH]; cbn; [discriminate |].
  destruct (k =? k0)%string; cbn; [reflexivity |].
  intros H. unfold claves in IH. now rewrite IH.
Qed.

Lemma contiene_asignar k k' v d :
  contiene k d = true -> contiene k (asignar k' v d) = true.
Proof.
  unfold contiene. rewrite obtener_asignar.
  now destruct (k =? k')%string.
Qed.
End DictLemmas2.

(** ** One call, one step *)

Section Pasos.

Context {N : Numeros}.
Implicit Types (s : SistemaInventario) (l : Llamada).

Lemma ejecutar_paso l s : paso s (ejecutar l s).
Proof.
  destruct l as [c n cat sm prov costo tipo datos
                | c q tipo u ahora | c q tipo u ahora]; cbn [ejecutar].
  - destruct (registrar_producto_estado s c n cat sm prov costo tipo datos)
      as [-> | [Hc [cl ->]]]; [constructor |].
    now apply paso_alta.
  - destruct (obtener c (sis_productos s)) as [p |] eqn:Hp.
    + rewrite (registrar_ingreso_devuelve s c p q tipo u ahora Hp).
      cbn [snd].
      exact (paso_movimiento s c p
               (crear_movimiento ("ingreso_" ++ tipo) p q u ahora)
               Hp eq_refl).
    + rewrite registrar_ingreso_no_encontrado by exact Hp. constructor.
  - destruct (obtener c (sis_productos s)) as [p |] eqn:Hp.
    + destruct (Z.lt_ge_cases (stock_actual p) q) as [Hlt | Hge].
      * rewrite (registrar_salida_insuficiente s c p q tipo u ahora Hp Hlt).
        constructor.
      * rewrite (registrar_salida_devuelve s c p q tipo u ahora Hp Hge).
        cbn [snd].
        exact (paso_movimiento s c p
                 (crear_movimiento ("salida_" ++ tipo) p (- q) u ahora)
                 Hp eq_refl).
    + rewrite registrar_salida_no_encontrado by exact Hp. constructor.
Qed.

Lemma movimientos_de_app c (l1 l2 : list Movimiento) :
  movimientos_de c (l1 ++ l2)
  = (movimientos_de c l1 ++ movimientos_de c l2)%list.
Proof. apply filter_app. Qed.

Lemma movimientos_de_ninguno c (registro : list Movimiento) :
  (forall m, In m registro -> mov_producto_codigo m <> c) ->
  movimientos_de c registro = [].
Proof.
  induction registro as [| m r IH]; intros H; cbn; [reflexivity |].
  destruct (String.eqb_spec (mov_producto_codigo m) c) as [Heq | _].
  - elim (H m (or_introl eq_refl) Heq).
  - apply IH. intros m' Hm'. apply H. now right.
Qed.

Lemma suma_cantidades_app (l1 l2 : list Movimiento) :
  suma_cantidades (l1 ++ l2) = suma_cantidades l1 + suma_cantidades l2.
Proof.
  induction l1 as [| m l1 IH]; cbn; [reflexivity |].
  fold (suma_cantidades (l1 ++ l2)) (suma_cantidades l1). lia.
Qed.

Lemma paso_consistente s s' : paso s s' -> consistente s -> consistente s'.
Proof.
  intros Hpaso [Hnd Hcod Hreg Hmov Hst].
  destruct Hpaso as [| c p Hc Hcp Hst0 Hm0 | c p m Hp Hm].
  - now constructor.
  - constructor; cbn [sis_productos sis_movimientos].
    + rewrite (asignar_nuevo _ _ _ Hc). unfold claves.
      rewrite map_app. cbn.
      apply NoDup_app; [exact Hnd | repeat constructor; intros [] |].
      intros k Hk [<- | []]. now apply (obtener_None_claves c _ Hc).
    + unfold claves_son_codigos. cbn [sis_productos].
      intros c0 p0. rewrite obtener_asignar.
      destruct (String.eqb_spec c0 c) as [-> |]; [| apply Hcod].
      now intros [= <-].
    + intros m Hin. apply contiene_asignar. now apply Hreg.
    + intros c0 p0. rewrite obtener_asignar.
      destruct (String.eqb_spec c0 c) as [-> |]; [| apply Hmov].
      intros [= <-]. rewrite Hm0. symmetry.
      apply movimientos_de_ninguno. intros m Hin Heq.
      specialize (Hreg m Hin). rewrite Heq in Hreg.
      unfold contiene in Hreg. now rewrite Hc in Hreg.
    + intros c0 p0. rewrite obtener_asignar.
      destruct (String.eqb_spec c0 c) as [-> |]; [| apply Hst].
      intros [= <-]. now rewrite Hst0, Hm0.
  - pose proof (Hcod c p Hp) as Hcp.
    constructor; cbn [sis_productos sis_movimientos].
    + now rewrite (claves_asignar_presente _ _ _ _ Hp).
    + unfold claves_son_codigos. cbn [sis_productos].
      intros c0 p0. rewrite obtener_asignar.
      destruct (String.eqb_spec c0 c) as [-> |]; [| apply Hcod].
      now intros [= <-].
    + intros m0 Hin. apply contiene_asignar.
      apply in_app_or in Hin. destruct Hin as [Hin | [<- | []]].
      * now apply Hreg.
      * rewrite Hm, Hcp. now apply (contiene_true _ _ p).
    + intros c0 p0. rewrite obtener_asignar, movimientos_de_app.
      cbn [movimientos_de filter]. rewrite Hm, Hcp.
      destruct (String.eqb_spec c0 c) as [-> | Hne].
      * intros [= <-]. cbn. rewrite String.eqb_refl.
        now rewrite (Hmov c p Hp).
      * intros Hp0. destruct (String.eqb_spec c c0) as [-> | _];
          [now elim Hne |].
        rewrite app_nil_r. now apply Hmov.
    + intros c0 p0. rewrite obtener_asignar.
      destruct (String.eqb_spec c0 c) as [-> |]; [| apply Hst].
      intros [= <-]. cbn. rewrite suma_cantidades_app. cbn.
      rewrite (Hst c p Hp). lia.
Qed.

Lemma sistema_vacio_consistente : consistente sistema_vacio.
Proof.
  constructor; cbn.
  - constructor.
  - intros c p. discriminate.
  - intros m [].
  - intros c p. discriminate.
  - intros c p. discriminate.
Qed.

Lemma ejecutar_todas_consistente (ls : list Llamada) :
  forall s, consistente s -> consistente (ejecutar_todas ls s).
Proof.
  induction ls as [| l ls IH]; intros s Hs; cbn; [exact Hs |].
  apply IH. apply (paso_consistente s); [apply ejecutar_paso | exact Hs].
Qed.

(** Every state the ledger can reach from its creation is consistent. *)
Lemma alcanzable_consistente (ls : list Llamada) :
  consistente (ejecutar_todas ls sistema_vacio).
Proof. apply ejecutar_todas_consistente, sistema_vacio_consistente. Qed.

End Pasos.

(** ** Consistency of the reachable states *)


(** X2: in every reachable state, the movement list a product keeps is
    the global log restricted to the product's code, in the same order;
    so [obtener_movimientos] and the history asked for a non-empty code
    agree. *)
Theorem reachable_product_list_is_log_projection
    `{Numeros} (llamadas : list Llamada) (s : SistemaInventario)
    (c : string) (p : Producto) :
  s = ejecutar_todas llamadas sistema_vacio ->
  obtener c (sis_productos s) = Some p ->
  obtener_movimientos p = movimientos_de c (sis_movimientos s)
  /\ (c <> "" ->
      obtener_historial_movimientos s (Some c) None None
      = obtener_movimientos p).
Proof.
  intros -> Hp.
  pose proof (con_movimientos _ (alcanzable_consistente llamadas) c p Hp)
    as Hm.
  split; [exact Hm |].
  intros Hc. unfold obtener_historial_movimientos, verdadero.
  destruct (String.eqb_spec c "") as [-> | _]; [now elim Hc |].
  cbn. symmetry. exact Hm.
Qed.

Lemma reachable_product_list_is_log_projection_witness :
  obtener_movimientos na009_con_7
  = movimientos_de "NA009"
      (sis_movimientos (ejecutar_todas llamadas_nombres sistema_vacio))
  /\ ("NA009" <> "" ->
      obtener_historial_movimientos
        (ejecutar_todas llamadas_nombres sistema_vacio)
        (Some "NA009") None None
      = obtener_movimientos na009_con_7).
Proof.
  apply (reachable_product_list_is_log_projection llamadas_nombres
           _ "NA009" na009_con_7 eq_refl).
  reflexivity.
Defined.

(** X3: in every reachable state, a product's stock is the sum of the
    signed quantities of the movements logged for its code. *)
Theorem reachable_stock_is_sum_of_log
    `{Numeros} (llamadas : list Llamada) (s : SistemaInventario)
    (c : string) (p : Producto) :
  s = ejecutar_todas llamadas sistema_vacio ->
  obtener c (sis_productos s) = Some p ->
  stock_actual p = suma_cantidades (movimientos_de c (sis_movimientos s)).
Proof.
  intros -> Hp.
  rewrite <- (con_movimientos _ (alcanzable_consistente llamadas) c p Hp).
  apply (con_stock _ (alcanzable_consistente llamadas) c p Hp).
Qed.

Lemma reachable_stock_is_sum_of_log_witness :
  stock_actual na009_con_7
  = suma_cantidades
      (movimientos_de "NA009"
         (sis_movimientos (ejecutar_todas llamadas_nombres sistema_vacio))).
Proof.
  apply (reachable_stock_is_sum_of_log llamadas_nombres _ "NA009"
           na009_con_7 eq_refl).
  reflexivity.
Defined.

(** X4: in every reachable state, each movement of the global log refers
    to a product that is registered, and is also in that product's own
    list. *)
Theorem reachable_movements_refer_to_products
    `{Numeros} (llamadas : list Llamada) (s : SistemaInventario)
    (m : Movimiento) :
  s = ejecutar_todas llamadas sistema_vacio ->
  In m (sis_movimientos s) ->
  exists p,
    obtener (mov_producto_codigo m) (sis_productos s) = Some p
    /\ In m (obtener_movimientos p).
Proof.
  intros -> Hin.
  pose proof (alcanzable_consistente llamadas) as Hcon.
  pose proof (con_registrados _ Hcon m Hin) as Hreg.
  unfold contiene in Hreg.
  destruct (obtener (mov_producto_codigo m) _) as [p |] eqn:Hp;
    [| discriminate].
  exists p. split; [reflexivity |].
  unfold obtener_movimientos.
  rewrite (con_movimientos _ Hcon _ p Hp).
  apply filter_In. split; [exact Hin | apply String.eqb_refl].
Qed.

Lemma reachable_movements_refer_to_products_witness :
  exists p,
    obtener "NA009"
      (sis_productos (ejecutar_todas llamadas_nombres sistema_vacio))
    = Some p
    /\ In (crear_movimiento "ingreso_compra" na009_con_7 7 "Sistema" 1000)
         (obtener_movimientos p).
Proof.
  apply (reachable_movements_refer_to_products llamadas_nombres _
           (crear_movimiento "ingreso_compra" na009_con_7 7 "Sistema" 1000)
           eq_refl).
  left. reflexivity.
Defined.

(** X5: in every reachable state, the history asked for a non-empty code
    that is not registered is empty, whatever the time range. *)
Theorem reachable_history_of_unknown_code_empty
    `{Numeros} (llamadas : list Llamada) (s : SistemaInventario)
    (c : string) (fecha_inicio fecha_fin : option Z) :
  s = ejecutar_todas llamadas sistema_vacio ->
  obtener c (sis_productos s) = None ->
  c <> "" ->
  obtener_historial_movimientos s (Some c) fecha_inicio fecha_fin = [].
Proof.
  intros -> Hc Hne.
  pose proof (alcanzable_consistente llamadas) as Hcon.
  unfold obtener_historial_movimientos, verdadero.
  destruct (String.eqb_spec c "") as [-> | _]; [now elim Hne |].
  cbn [negb].
  fold (movimientos_de c
          (sis_movimientos (ejecutar_todas llamadas sistema_vacio))).
  rewrite movimientos_de_ninguno.
  - now destruct fecha_inicio, fecha_fin.
  - intros m Hin Heq.
    pose proof (con_registrados _ Hcon m Hin) as Hreg.
    rewrite Heq in Hreg. unfold contiene in Hreg. now rewrite Hc in Hreg.
Qed.

Lemma reachable_history_of_unknown_code_empty_witness :
  obtener_historial_movimientos
    (ejecutar_todas llamadas_nombres sistema_vacio)
    (Some "ZZ999") (Some 0) None
  = [].
Proof.
  apply (reachable_history_of_unknown_code_empty llamadas_nombres _
           "ZZ999" (Some 0) None eq_refl).
  - reflexivity.
  - discriminate.
Defined.

(** ** What no call undoes *)

Section Permanencia.

Context {N : Numeros}.
Implicit Types (s : SistemaInventario) (p : Producto).

Lemma mismos_datos_refl p : mismos_datos p p.
Proof. repeat split. Qed.

Lemma mismos_datos_trans p1 p2 p3 :
  mismos_datos p1 p2 -> mismos_datos p2 p3 -> mismos_datos p1 p3.
Proof.
  unfold mismos_datos. intros H12 H23.
  decompose [and] H12. decompose [and] H23.
  repeat split; congruence.
Qed.

Lemma paso_conserva_producto s s' c p :
  paso s s' ->
  obtener c (sis_productos s) = Some p ->
  exists p', obtener c (sis_productos s') = Some p' /\ mismos_datos p p'.
Proof.
  intros Hpaso Hp.
  destruct Hpaso as [| c0 p0 Hc0 _ _ _ | c0 p0 m Hp0 _];
    cbn [sis_productos].
  - exists p. split; [exact Hp | apply mismos_datos_refl].
  - exists p. split; [| apply mismos_datos_refl].
    rewrite obtener_asignar.
    destruct (String.eqb_spec c c0) as [-> |]; [congruence | exact Hp].
  - rewrite obtener_asignar.
    destruct (String.eqb_spec c c0) as [-> |].
    + eexists. split; [reflexivity |].
      assert (p0 = p) as -> by congruence. repeat split.
    + exists p. split; [exact Hp | apply mismos_datos_refl].
Qed.

Lemma paso_registro s s' :
  paso s s' ->
  exists nuevos,
    sis_movimientos s' = (sis_movimientos s ++ nuevos)%list
    /\ (List.length nuevos <= 1)%nat.
Proof.
  intros [| c p _ _ _ _ | c p m _ _]; cbn [sis_movimientos].
  - exists []. split; [now rewrite app_nil_r | cbn; lia].
  - exists []. split; [now rewrite app_nil_r | cbn; lia].
  - exists [m]. split; [reflexivity | cbn; lia].
Qed.

End Permanencia.

(** X6: no sequence of calls removes a product or changes the data it was
    registered with (code, name, category, minimum stock, supplier, unit
    cost and kind); only its stock and its movement list move. *)
Theorem products_are_never_removed_or_edited
    `{Numeros} (llamadas : list Llamada) (s : SistemaInventario)
    (c : string) (p : Producto) :
  obtener c (sis_productos s) = Some p ->
  exists p',
    obtener c (sis_productos (ejecutar_todas llamadas s)) = Some p'
    /\ mismos_datos p p'.
Proof.
  revert s p.
  induction llamadas as [| l ls IH]; intros s p Hp; cbn.
  - exists p. split; [exact Hp | apply mismos_datos_refl].
  - destruct (paso_conserva_producto s (ejecutar l s) c p
                (ejecutar_paso l s) Hp) as (p1 & Hp1 & H1).
    destruct (IH (ejecutar l s) p1 Hp1) as (p2 & Hp2 & H2).
    exists p2. split; [exact Hp2 | now apply (mismos_datos_trans p p1 p2)].
Qed.

Lemma products_are_never_removed_or_edited_witness :
  exists p',
    obtener "NA001"
      (sis_productos
         (ejecutar_todas
            [ LlamaRegistrarSalida "NA001" 12 "venta" "Sistema" 3000;
              LlamaRegistrarProducto "NA001" "Otro nombre" "Otra" 1
                (inr "Otro") 99 "importado" (datos_importado 1) ]
            sistema_ejemplo))
    = Some p'
    /\ mismos_datos na001_con_30 p'.
Proof.
  apply products_are_never_removed_or_edited. reflexivity.
Defined.

(** X7: the global log is append-only: a sequence of calls leaves the
    movements already logged in place and in order, and adds at most one
    movement per call. *)
Theorem log_is_append_only
    `{Numeros} (llamadas : list Llamada) (s : SistemaInventario) :
  exists nuevos,
    sis_movimientos (ejecutar_todas llamadas s)
    = (sis_movimientos s ++ nuevos)%list
    /\ (List.length nuevos <= List.length llamadas)%nat.
Proof.
  revert s.
  induction llamadas as [| l ls IH]; intros s; cbn [ejecutar_todas fold_left].
  - exists []. split; [now rewrite app_nil_r | cbn; lia].
  - destruct (paso_registro s (ejecutar l s) (ejecutar_paso l s))
      as (n1 & E1 & L1).
    destruct (IH (ejecutar l s)) as (n2 & E2 & L2).
    exists (n1 ++ n2)%list. split.
    + unfold ejecutar_todas in E2. rewrite E2, E1. now rewrite app_assoc.
    + rewrite length_app. cbn. lia.
Qed.

(** ** Calls that raise *)

(** X8: whichever of the three operations is called and whatever
    exception it raises, a call that raises leaves the ledger exactly as
    it found it. *)
Theorem raising_call_changes_nothing
    `{Numeros} (l : Llamada) (s : SistemaInventario) :
  lanza l s = true -> ejecutar l s = s.
Proof.
  destruct l as [c n cat sm prov costo tipo datos
                | c q tipo u ahora | c q tipo u ahora];
    cbn [lanza ejecutar].
  - unfold registrar_producto, bind, leer.
    destruct (contiene c (sis_productos s)); [reflexivity |].
    destruct (tipo =? "nacional")%string.
    + destruct (leer_region_origen datos); [discriminate | reflexivity].
    + destruct (tipo =? "importado")%string; [| reflexivity].
      destruct (leer_impuesto datos); [discriminate | reflexivity].
  - destruct (obtener c (sis_productos s)) as [p |] eqn:Hp.
    + rewrite (registrar_ingreso_devuelve s c p q tipo u ahora Hp).
      discriminate.
    + now rewrite registrar_ingreso_no_encontrado.
  - destruct (obtener c (sis_productos s)) as [p |] eqn:Hp.
    + destruct (Z.lt_ge_cases (stock_actual p) q) as [Hlt | Hge].
      * now rewrite (registrar_salida_insuficiente s c p q tipo u ahora Hp).
      * rewrite (registrar_salida_devuelve s c p q tipo u ahora Hp Hge).
        discriminate.
    + now rewrite registrar_salida_no_encontrado.
Qed.

Lemma raising_call_changes_nothing_witness :
  ejecutar
    (LlamaRegistrarProducto "NA007" "Perno" "Tornilleria" 10
       (inr "Aceros SAC") 2 "perecible" (datos_nacional "Lima"))
    sistema_ejemplo
  = sistema_ejemplo.
Proof.
  apply raising_call_changes_nothing. reflexivity.
Defined.

(** X9: with a code that is not in the catalog, [registrar_ingreso] and
    [registrar_salida] both raise [ProductoNoEncontrado] with a message
    that quotes the code, whatever the quantity, and change nothing. *)
Theorem unknown_code_raises_not_found
    `{Numeros} (s : SistemaInventario) (c : string) (q : Z)
    (tipo usuario : string) (ahora : Z) :
  obtener c (sis_productos s) = None ->
  exists mensaje,
    registrar_ingreso c q tipo usuario ahora s
    = (Lanza (ProductoNoEncontrado mensaje), s)
    /\ registrar_salida c q tipo usuario ahora s
       = (Lanza (ProductoNoEncontrado mensaje), s)
    /\ en c mensaje = true.
Proof.
  intros Hc. eexists. split; [| split].
  - now apply registrar_ingreso_no_encontrado.
  - now apply registrar_salida_no_encontrado.
  - apply en_medio.
Qed.

Lemma unknown_code_raises_not_found_witness :
  exists mensaje,
    registrar_ingreso "NA404" 10 "compra" "Sistema" 2000 sistema_ejemplo
    = (Lanza (ProductoNoEncontrado mensaje), sistema_ejemplo)
    /\ registrar_salida "NA404" 10 "compra" "Sistema" 2000 sistema_ejemplo
       = (Lanza (ProductoNoEncontrado mensaje), sistema_ejemplo)
    /\ en "NA404" mensaje = true.
Proof.
  apply unknown_code_raises_not_found. reflexivity.
Defined.

(** X10: registering a code that is free with a product type other than
    ["nacional"] and ["importado"], or without the entry of [datos_extra]
    that the type requires, raises [ValueError] and stores nothing. *)
Theorem registrar_producto_invalid_data
    `{Numeros} (s : SistemaInventario) (c n cat : string) (sm : Z)
    (prov : Proveedor + string) (costo : num) (tipo : string)
    (datos : option DatosExtra) :
  contiene c (sis_productos s) = false ->
  datos_validos tipo datos = false ->
  exists mensaje,
    registrar_producto c n cat sm prov costo tipo datos s
    = (Lanza (ValueError mensaje), s).
Proof.
  intros Hc Hv. unfold registrar_producto, bind, leer. rewrite Hc.
  unfold datos_validos in Hv.
  destruct (tipo =? "nacional")%string.
  - destruct (leer_region_origen datos); [discriminate | now eexists].
  - destruct (tipo =? "importado")%string; [| now eexists].
    destruct (leer_impuesto datos); [discriminate | now eexists].
Qed.

Lemma registrar_producto_invalid_data_witness :
  exists mensaje,
    registrar_producto "IM009" "Broca" "Herramientas" 4 (inr "Bosch Import")
      30 "importado" (datos_nacional "Lima") sistema_ejemplo
    = (Lanza (ValueError mensaje), sistema_ejemplo).
Proof.
  apply registrar_producto_invalid_data; reflexivity.
Defined.

(** X11: a successful registration puts the new product last in the
    catalog and leaves the products before it, and their order, as they
    were. *)
Theorem registrar_producto_appends_to_catalog
    `{Numeros} (s : SistemaInventario) (c n cat : string) (sm : Z)
    (prov : Proveedor + string) (costo : num) (tipo : string)
    (datos : option DatosExtra) :
  contiene c (sis_productos s) = false ->
  datos_validos tipo datos = true ->
  exists p s',
    registrar_producto c n cat sm prov costo tipo datos s = (Devuelve p, s')
    /\ sis_productos s' = (sis_productos s ++ [(c, p)])%list
    /\ sis_movimientos s' = sis_movimientos s.
Proof.
  intros Hc Hv. apply contiene_false in Hc.
  destruct (registrar_producto_devuelve s c n cat sm prov costo tipo datos
              Hc Hv) as [cl Hr].
  do 2 eexists. split; [exact Hr |].
  cbn [sis_productos sis_movimientos]. split; [| reflexivity].
  now apply asignar_nuevo.
Qed.

Lemma registrar_producto_appends_to_catalog_witness :
  exists p s',
    registrar_producto "NA002" "Tornillo Acero 5mm" "Tornilleria" 100
      (inr "Aceros SAC") 1 "nacional" (datos_nacional "Arequipa")
      sistema_ejemplo
    = (Devuelve p, s')
    /\ sis_productos s' = (sis_productos sistema_ejemplo ++ [("NA002", p)])%list
    /\ sis_movimientos s' = sis_movimientos sistema_ejemplo.
Proof.
  apply registrar_producto_appends_to_catalog; reflexivity.
Defined.

(** ** Movements that undo each other, and odd quantities *)

(** X12: on a registered product whose stock is not negative, an inbound
    movement followed by an outbound movement of the same quantity, of
    any sign, both return; the stock is back where it was and the log
    holds two more movements, of opposite quantities. *)
Theorem ingreso_then_salida_restores_stock
    `{Numeros} (s : SistemaInventario) (c : string) (p : Producto) (q : Z)
    (tipo1 tipo2 u1 u2 : string) (t1 t2 : Z) :
  obtener c (sis_productos s) = Some p ->
  0 <= stock_actual p ->
  exists m1 s1 m2 s2 p2,
    registrar_ingreso c q tipo1 u1 t1 s = (Devuelve m1, s1)
    /\ registrar_salida c q tipo2 u2 t2 s1 = (Devuelve m2, s2)
    /\ obtener c (sis_productos s2) = Some p2
    /\ stock_actual p2 = stock_actual p
    /\ sis_movimientos s2 = (sis_movimientos s ++ [m1; m2])%list
    /\ mov_cantidad m1 = q /\ mov_cantidad m2 = - q.
Proof.
  intros Hp Hst.
  pose (m1 := crear_movimiento ("ingreso_" ++ tipo1) p q u1 t1).
  pose (p1 := tras_movimiento p q m1).
  pose (s1 := {| sis_productos := asignar c p1 (sis_productos s);
                 sis_movimientos := (sis_movimientos s ++ [m1])%list |}).
  assert (Hp1 : obtener c (sis_productos s1) = Some p1)
    by apply obtener_asignar_eq.
  assert (Hle : q <= stock_actual p1) by (cbn; lia).
  exists m1, s1. do 3 eexists. split; [| split].
  - apply (registrar_ingreso_devuelve s c p q tipo1 u1 t1 Hp).
  - apply (registrar_salida_devuelve s1 c p1 q tipo2 u2 t2 Hp1 Hle).
  - subst s1 p1 m1. cbn [sis_productos sis_movimientos].
    rewrite obtener_asignar_eq.
    split; [reflexivity |]. split; [cbn; lia |].
    split; [now rewrite <- app_assoc | split; reflexivity].
Qed.

Lemma ingreso_then_salida_restores_stock_witness :
  exists m1 s1 m2 s2 p2,
    registrar_ingreso "IM001" (-9) "ajuste" "Sistema" 2000 sistema_ejemplo
    = (Devuelve m1, s1)
    /\ registrar_salida "IM001" (-9) "ajuste" "Sistema" 2001 s1
       = (Devuelve m2, s2)
    /\ obtener "IM001" (sis_productos s2) = Some p2
    /\ stock_actual p2 = stock_actual im001_con_2
    /\ sis_movimientos s2 = (sis_movimientos sistema_ejemplo ++ [m1; m2])%list
    /\ mov_cantidad m1 = -9 /\ mov_cantidad m2 = - -9.
Proof.
  apply ingreso_then_salida_restores_stock; [reflexivity | discriminate].
Defined.

(** X13: [registrar_salida] does not look at the sign of the quantity
    either: on a registered product whose stock is not negative, an
    outbound movement of a quantity [q <= 0] returns, is logged with the
    quantity [- q], which is not negative, and the stock grows by
    [- q]. *)
Theorem registrar_salida_nonpositive_quantity_adds_stock
    `{Numeros} (s : SistemaInventario) (c : string) (p : Producto) (q : Z)
    (tipo usuario : string) (ahora : Z) :
  obtener c (sis_productos s) = Some p ->
  0 <= stock_actual p ->
  q <= 0 ->
  exists m s' p',
    registrar_salida c q tipo usuario ahora s = (Devuelve m, s')
    /\ mov_cantidad m = - q /\ 0 <= mov_cantidad m
    /\ sis_movimientos s' = (sis_movimientos s ++ [m])%list
    /\ obtener c (sis_productos s') = Some p'
    /\ stock_actual p' = stock_actual p + - q
    /\ stock_actual p <= stock_actual p'.
Proof.
  intros Hp Hst Hq.
  assert (Hle : q <= stock_actual p) by lia.
  do 3 eexists. split.
  - apply (registrar_salida_devuelve s c p q tipo usuario ahora Hp Hle).
  - cbn [sis_productos sis_movimientos]. rewrite obtener_asignar_eq.
    cbn [mov_cantidad crear_movimiento stock_actual tras_movimiento
         agregar_movimiento actualizar_stock].
    repeat split; try reflexivity;
      cbn [stock_actual tras_movimiento agregar_movimiento actualizar_stock];
      lia.
Qed.

Lemma registrar_salida_nonpositive_quantity_adds_stock_witness :
  exists m s' p',
    registrar_salida "NA001" (-5) "venta" "Sistema" 2000 sistema_ejemplo
    = (Devuelve m, s')
    /\ mov_cantidad m = - -5 /\ 0 <= mov_cantidad m
    /\ sis_movimientos s' = (sis_movimientos sistema_ejemplo ++ [m])%list
    /\ obtener "NA001" (sis_productos s') = Some p'
    /\ stock_actual p' = stock_actual na001_con_30 + - -5
    /\ stock_actual na001_con_30 <= stock_actual p'.
Proof.
  apply registrar_salida_nonpositive_quantity_adds_stock;
    [reflexivity | discriminate | discriminate].
Defined.

(** ** Searching the catalog *)

Lemma fold_left_append_if {A : Type} (f : A -> bool) (l : list A) :
  forall acc,
    fold_left (fun acc x => if f x then (acc ++ [x])%list else acc) l acc
    = (acc ++ filter f l)%list.
Proof.
  induction l as [| x l IH]; intros acc; cbn.
  - now rewrite app_nil_r.
  - rewrite IH. destruct (f x); [now rewrite <- app_assoc | reflexivity].
Qed.

Lemma en_refl (s : string) : en s s = true.
Proof. exact (en_final "" s). Qed.

Lemma en_vacio (s : string) : en "" s = true.
Proof. now destruct s. Qed.

(** X14: [buscar_producto] returns exactly the products of the catalog
    whose selected field contains the value, both lower-cased, in catalog
    order. *)
Theorem buscar_producto_is_filter
    `{Numeros} (lower : string -> string) (s : SistemaInventario)
    (criterio valor : string) :
  buscar_producto lower s criterio valor
  = filter (coincide lower criterio valor) (valores (sis_productos s)).
Proof.
  unfold buscar_producto.
  exact (fold_left_append_if (coincide lower criterio valor) _ []).
Qed.

(** X15: a product of the catalog is found by its own code, by its own
    name and by its own category, whatever [str.lower] does to them. *)
Theorem buscar_producto_finds_own_fields
    `{Numeros} (lower : string -> string) (s : SistemaInventario)
    (p : Producto) :
  In p (valores (sis_productos s)) ->
  In p (buscar_producto lower s "codigo" (codigo p))
  /\ In p (buscar_producto lower s "nombre" (nombre p))
  /\ In p (buscar_producto lower s "categoria" (categoria p)).
Proof.
  intros Hin. unfold buscar_producto.
  rewrite !fold_left_append_if. cbn [app].
  repeat split; apply filter_In; (split; [exact Hin |]);
    unfold coincide; cbn; rewrite en_refl; reflexivity.
Qed.

Lemma buscar_producto_finds_own_fields_witness :
  In na001_con_30
    (buscar_producto (fun x => x) sistema_ejemplo "codigo" "NA001")
  /\ In na001_con_30
       (buscar_producto (fun x => x) sistema_ejemplo "nombre"
          "Varilla de Acero Nacional")
  /\ In na001_con_30
       (buscar_producto (fun x => x) sistema_ejemplo "categoria"
          "Materiales").
Proof.
  apply (buscar_producto_finds_own_fields (fun x => x) sistema_ejemplo
           na001_con_30).
  left. reflexivity.
Defined.

(** X16: searching for the empty string, by any of the three criteria,
    returns the whole catalog in catalog order (the empty string
    lower-cased is the empty string, which every string contains). *)
Theorem buscar_producto_empty_value_returns_all
    `{Numeros} (lower : string -> string) (s : SistemaInventario)
    (criterio : string) :
  lower "" = "" ->
  criterio = "codigo" \/ criterio = "nombre" \/ criterio = "categoria" ->
  buscar_producto lower s criterio "" = valores (sis_productos s).
Proof.
  intros Hl Hc. unfold buscar_producto. rewrite fold_left_append_if.
  cbn [app]. rewrite <- (filter_true (valores (sis_productos s))) at 2.
  apply filter_ext. intros p. unfold coincide. rewrite Hl, !en_vacio.
  destruct Hc as [-> | [-> | ->]]; reflexivity.
Qed.

Lemma buscar_producto_empty_value_returns_all_witness :
  buscar_producto (fun x => x) sistema_ejemplo "categoria" ""
  = valores (sis_productos sistema_ejemplo).
Proof.
  apply buscar_producto_empty_value_returns_all;
    [reflexivity | right; right; reflexivity].
Defined.

(** ** The movement history *)

Lemma filter_ninguno {A : Type} (f : A -> bool) (l : list A) :
  (forall x, f x = false) -> filter f l = [].
Proof.
  intros H. induction l as [| a l IH]; cbn; [reflexivity |].
  now rewrite H.
Qed.

(** X17: a time range whose end lies before its start selects nothing,
    whatever the log and the product code. *)
Theorem obtener_historial_movimientos_inverted_range
    `{Numeros} (s : SistemaInventario) (codigo_producto : option string)
    (fecha_inicio fecha_fin : Z) :
  fecha_fin < fecha_inicio ->
  obtener_historial_movimientos s codigo_producto
    (Some fecha_inicio) (Some fecha_fin)
  = [].
Proof.
  intros Hlt. unfold obtener_historial_movimientos.
  rewrite filter_filter. apply filter_ninguno. intros m.
  apply andb_false_iff.
  destruct (Z.geb_spec (mov_fecha m) fecha_inicio) as [Hge | _];
    [| now left].
  right. apply Z.leb_gt. lia.
Qed.

Lemma obtener_historial_movimientos_inverted_range_witness :
  obtener_historial_movimientos sistema_ejemplo None (Some 1001) (Some 1000)
  = [].
Proof.
  apply obtener_historial_movimientos_inverted_range. reflexivity.
Defined.

Section Historial.

Context {N : Numeros}.

Lemma historial_de_codigo (s : SistemaInventario) (c : string) :
  c <> "" ->
  obtener_historial_movimientos s (Some c) None None
  = movimientos_de c (sis_movimientos s).
Proof.
  intros Hc. unfold obtener_historial_movimientos, verdadero.
  destruct (String.eqb_spec c "") as [-> | _]; [now elim Hc |].
  reflexivity.
Qed.

Lemma verdadero_no_vacio (c : string) : c <> "" -> verdadero c = true.
Proof.
  intros Hc. unfold verdadero.
  now destruct (String.eqb_spec c "").
Qed.

End Historial.

(** X18: in every reachable state, [mostrar_historial] asked for a
    non-empty code that is not registered prints the code itself in the
    title, and then that there are no movements. *)
Theorem mostrar_historial_unknown_code
    `{Numeros} (llamadas : list Llamada) (s : SistemaInventario)
    (c : string) :
  s = ejecutar_todas llamadas sistema_vacio ->
  c <> "" ->
  obtener c (sis_productos s) = None ->
  mostrar_historial s (Some c)
  = [ Texto (nl ++ "HISTORIAL DE MOVIMIENTOS - " ++ c);
      Texto (repetir "=" 80);
      Texto "No hay movimientos registrados" ].
Proof.
  intros -> Hne Hc.
  pose proof (alcanzable_consistente llamadas) as Hcon.
  unfold mostrar_historial.
  rewrite (historial_de_codigo _ c Hne), (verdadero_no_vacio c Hne), Hc.
  rewrite movimientos_de_ninguno; [reflexivity |].
  intros m Hin Heq.
  pose proof (con_registrados _ Hcon m Hin) as Hreg.
  rewrite Heq in Hreg. unfold contiene in Hreg. now rewrite Hc in Hreg.
Qed.

Lemma mostrar_historial_unknown_code_witness :
  mostrar_historial (ejecutar_todas llamadas_nombres sistema_vacio)
    (Some "ZZ999")
  = [ Texto (nl ++ "HISTORIAL DE MOVIMIENTOS - " ++ "ZZ999");
      Texto (repetir "=" 80);
      Texto "No hay movimientos registrados" ].
Proof.
  apply (mostrar_historial_unknown_code llamadas_nombres _ "ZZ999" eq_refl);
    [discriminate | reflexivity].
Defined.

(** X19: in every reachable state, [mostrar_historial] asked for the
    non-empty code of a registered product prints the product's name in
    the title, and then the movements of the product's own list, in
    order, or that there are none when that list is empty. *)
Theorem mostrar_historial_registered_code
    `{Numeros} (llamadas : list Llamada) (s : SistemaInventario)
    (c : string) (p : Producto) :
  s = ejecutar_todas llamadas sistema_vacio ->
  c <> "" ->
  obtener c (sis_productos s) = Some p ->
  mostrar_historial s (Some c)
  = Texto (nl ++ "HISTORIAL DE MOVIMIENTOS - " ++ nombre p)
    :: Texto (repetir "=" 80)
    :: match obtener_movimientos p with
       | [] => [Texto "No hay movimientos registrados"]
       | _ :: _ => map ImprimeMovimiento (obtener_movimientos p)
       end.
Proof.
  intros -> Hne Hp.
  pose proof (alcanzable_consistente llamadas) as Hcon.
  unfold mostrar_historial, obtener_movimientos.
  rewrite (historial_de_codigo _ c Hne), (verdadero_no_vacio c Hne), Hp.
  now rewrite (con_movimientos _ Hcon c p Hp).
Qed.

Lemma mostrar_historial_registered_code_witness :
  mostrar_historial (ejecutar_todas llamadas_nombres sistema_vacio)
    (Some "NA009")
  = [ Texto (nl ++ "HISTORIAL DE MOVIMIENTOS - "
             ++ "Varilla de Acero Nacional");
      Texto (repetir "=" 80);
      ImprimeMovimiento
        (crear_movimiento "ingreso_compra" na009_con_7 7 "Sistema" 1000) ].
Proof.
  apply (mostrar_historial_registered_code llamadas_nombres _ "NA009"
           na009_con_7 eq_refl);
    [discriminate | reflexivity].
Defined.

(** ** Reports *)

(** X20: [mostrar_alerta_stock] prints nothing for a product above its
    minimum; for a product at or under it, it prints six lines, one of
    which gives the number of units missing, which is never negative (it
    is zero when the stock equals the minimum). *)
Theorem mostrar_alerta_stock_lines `{Numeros} (p : Producto) :
  (stock_minimo p < stock_actual p -> mostrar_alerta_stock p = [])
  /\ (stock_actual p <= stock_minimo p ->
      exists faltan,
        0 <= faltan
        /\ stock_actual p + faltan = stock_minimo p
        /\ List.length (mostrar_alerta_stock p) = 6%nat
        /\ In ("Faltan: " ++ str_int faltan ++ " unidades")%string
             (mostrar_alerta_stock p)).
Proof.
  unfold mostrar_alerta_stock, verificar_stock_minimo. split.
  - intros Hgt. now rewrite (proj2 (Z.leb_gt _ _) Hgt).
  - intros Hle. rewrite (proj2 (Z.leb_le _ _) Hle).
    exists (stock_minimo p - stock_actual p).
    split; [lia |]. split; [lia |]. split; [reflexivity |].
    cbn [In]. tauto.
Qed.

Lemma mostrar_alerta_stock_lines_witness :
  mostrar_alerta_stock (actualizar_stock na001_con_30 21) = []
  /\ exists faltan,
       0 <= faltan
       /\ stock_actual (actualizar_stock na001_con_30 20) + faltan = 50
       /\ List.length
            (mostrar_alerta_stock (actualizar_stock na001_con_30 20))
          = 6%nat
       /\ In ("Faltan: " ++ str_int faltan ++ " unidades")%string
            (mostrar_alerta_stock (actualizar_stock na001_con_30 20)).
Proof.
  split.
  - apply (proj1 (mostrar_alerta_stock_lines
                    (actualizar_stock na001_con_30 21))).
    reflexivity.
  - apply (proj2 (mostrar_alerta_stock_lines
                    (actualizar_stock na001_con_30 20))).
    discriminate.
Defined.

Section Listados.

Context {N : Numeros}.

Lemma listar_productos_fold (ps : list Producto) :
  forall (filas : list FilaStock) (bajo : list Producto),
    fold_left
      (fun '(filas, productos_bajo_stock) producto =>
         ((filas ++ [fila_stock_de producto])%list,
          if verificar_stock_minimo producto
          then (productos_bajo_stock ++ [producto])%list
          else productos_bajo_stock))
      ps (filas, bajo)
    = ((filas ++ map fila_stock_de ps)%list,
       (bajo ++ filter verificar_stock_minimo ps)%list).
Proof.
  induction ps as [| p ps IH]; intros filas bajo; cbn.
  - now rewrite !app_nil_r.
  - rewrite IH, <- app_assoc. cbn.
    destruct (verificar_stock_minimo p); [now rewrite <- app_assoc |].
    reflexivity.
Qed.

Lemma listar_productos_map (ps : list Producto) :
  listar_productos ps
  = (map fila_stock_de ps, filter verificar_stock_minimo ps).
Proof. unfold listar_productos. now rewrite listar_productos_fold. Qed.

Lemma fila_estado (p : Producto) :
  (fs_estado (fila_stock_de p) = "BAJO"
   <-> fs_stock (fila_stock_de p) <= fs_minimo (fila_stock_de p))
  /\ (fs_estado (fila_stock_de p) = "OK"
      <-> fs_minimo (fila_stock_de p) < fs_stock (fila_stock_de p)).
Proof.
  cbn. unfold verificar_stock_minimo.
  destruct (Z.leb_spec (stock_actual p) (stock_minimo p)); split; split;
    intros; try reflexivity; try discriminate; lia.
Qed.

Lemma insertar_por_nombre_perm (x : Producto) (l : list Producto) :
  Permutation (insertar_por_nombre x l) (x :: l).
Proof.
  induction l as [| y l IH]; cbn; [reflexivity |].
  destruct (nombre x <=? nombre y)%string; [reflexivity |].
  rewrite IH. apply perm_swap.
Qed.

Lemma sorted_por_nombre_perm (l : list Producto) :
  Permutation (sorted_por_nombre l) l.
Proof.
  induction l as [| x l IH]; cbn; [reflexivity |].
  rewrite insertar_por_nombre_perm. now constructor.
Qed.

Lemma insertar_por_nombre_sorted (x : Producto) (l : list Producto) :
  Sorted nombre_leb l -> Sorted nombre_leb (insertar_por_nombre x l).
Proof.
  induction l as [| y l IH]; intros Hs; cbn.
  - repeat constructor.
  - destruct (nombre x <=? nombre y)%string eqn:E.
    + constructor; [exact Hs | constructor; exact E].
    + apply Sorted_inv in Hs. destruct Hs as [Hs Hhd].
      constructor; [now apply IH |].
      assert (Hyx : nombre_leb y x).
      { unfold nombre_leb.
        destruct (String.leb_total (nombre x) (nombre y)); congruence. }
      destruct l as [| z l]; cbn.
      * constructor. exact Hyx.
      * destruct (nombre x <=? nombre z)%string; constructor;
          [exact Hyx | now inversion Hhd].
Qed.

Lemma sorted_por_nombre_sorted (l : list Producto) :
  Sorted nombre_leb (sorted_por_nombre l).
Proof.
  induction l as [| x l IH]; cbn; [constructor |].
  now apply insertar_por_nombre_sorted.
Qed.

Lemma leb_refl (a : string) : (a <=? a)%string = true.
Proof. now destruct (String.leb_total a a). Qed.

Lemma insertar_por_nombre_filter (n : string) (x : Producto)
    (l : list Producto) :
  filter (fun p => (nombre p =? n)%string) (insertar_por_nombre x l)
  = filter (fun p => (nombre p =? n)%string) (x :: l).
Proof.
  induction l as [| y l IH]; [reflexivity |].
  cbn [insertar_por_nombre].
  destruct (nombre x <=? nombre y)%string eqn:E; [reflexivity |].
  cbn [filter] in *. rewrite IH.
  destruct (String.eqb_spec (nombre x) n) as [Hx |]; [| reflexivity].
  destruct (String.eqb_spec (nombre y) n) as [Hy |]; [| reflexivity].
  rewrite Hx, <- Hy, leb_refl in E. discriminate.
Qed.

Lemma sorted_por_nombre_filter (n : string) (l : list Producto) :
  filter (fun p => (nombre p =? n)%string) (sorted_por_nombre l)
  = filter (fun p => (nombre p =? n)%string) l.
Proof.
  induction l as [| x l IH]; [reflexivity |].
  cbn [sorted_por_nombre fold_right].
  rewrite insertar_por_nombre_filter. cbn [filter].
  fold (sorted_por_nombre l). now rewrite IH.
Qed.

Lemma filter_map_fila (n : string) (l : list Producto) :
  filter (fun f => (fs_nombre f =? n)%string) (map fila_stock_de l)
  = map fila_stock_de (filter (fun p => (nombre p =? n)%string) l).
Proof.
  induction l as [| x l IH]; cbn; [reflexivity |].
  destruct (nombre x =? n)%string; cbn; now rewrite IH.
Qed.

Lemma Sorted_map_fila (l : list Producto) :
  Sorted nombre_leb l -> Sorted fila_leb (map fila_stock_de l).
Proof.
  induction 1 as [| p l Hs IH Hhd]; cbn; constructor; [exact IH |].
  destruct Hhd; cbn; constructor; assumption.
Qed.

Lemma avisos_vacios (bajo : list Producto) :
  avisos_bajo_stock bajo = [] <-> bajo = [].
Proof. destruct bajo; cbn; split; intros; (reflexivity || discriminate). Qed.

End Listados.

Lemma Permutation_filter_bool {A : Type} (f : A -> bool) (l l' : list A) :
  Permutation l l' -> Permutation (filter f l) (filter f l').
Proof.
  induction 1 as [| x l l' _ IH | x y l | l l' l'' _ IH1 _ IH2]; cbn.
  - constructor.
  - destruct (f x); [now constructor | exact IH].
  - destruct (f x), (f y); try reflexivity. apply perm_swap.
  - now transitivity (filter f l').
Qed.

(** X21: [generar_reporte_stock] prints one row per product, in catalog
    order; a row reads BAJO exactly when the stock is at most the minimum
    and OK otherwise; the closing section is absent exactly when every
    row reads OK, and otherwise holds a heading and one line per row that
    reads BAJO. *)
Theorem generar_reporte_stock_rows_and_alerts
    `{Numeros} (s : SistemaInventario) :
  map fs_codigo (fst (generar_reporte_stock s))
  = map codigo (valores (sis_productos s))
  /\ Forall (fun f =>
               (fs_estado f = "BAJO" <-> fs_stock f <= fs_minimo f)
               /\ (fs_estado f = "OK" <-> fs_minimo f < fs_stock f))
       (fst (generar_reporte_stock s))
  /\ (snd (generar_reporte_stock s) = []
      <-> Forall (fun f => fs_estado f = "OK")
            (fst (generar_reporte_stock s)))
  /\ (snd (generar_reporte_stock s) <> [] ->
      List.length (snd (generar_reporte_stock s))
      = S (List.length
             (filter (fun f => (fs_estado f =? "BAJO")%string)
                (fst (generar_reporte_stock s))))).
Proof.
  unfold generar_reporte_stock. rewrite listar_productos_map. cbn [fst snd].
  set (ps := valores (sis_productos s)). clearbody ps.
  split; [| split; [| split]].
  - rewrite map_map. reflexivity.
  - apply Forall_forall. intros f Hf. apply in_map_iff in Hf.
    destruct Hf as (p & <- & _). apply fila_estado.
  - rewrite avisos_vacios.
    induction ps as [| p ps IH]; cbn; [split; [constructor | reflexivity] |].
    destruct (verificar_stock_minimo p) eqn:E; split.
    + discriminate.
    + intros HF. inversion HF as [| ? ? Hp _]. cbn in Hp.
      rewrite E in Hp. discriminate.
    + intros Hn. constructor; [cbn; now rewrite E | now apply IH].
    + intros HF. inversion HF. now apply IH.
  - assert (E : List.length
                  (filter (fun f => (fs_estado f =? "BAJO")%string)
                     (map fila_stock_de ps))
                = List.length (filter verificar_stock_minimo ps)).
    { induction ps as [| p ps IH]; [reflexivity |].
      cbn [map filter fila_stock_de fs_estado].
      destruct (verificar_stock_minimo p); cbn [String.eqb Ascii.eqb];
        cbn; now rewrite IH. }
    intros Hne.
    rewrite E.
    destruct (filter verificar_stock_minimo ps); cbn;
      [now elim Hne | now rewrite length_map].
Qed.

Lemma generar_reporte_stock_rows_and_alerts_witness :
  List.length (snd (generar_reporte_stock sistema_ejemplo))
  = S (List.length
         (filter (fun f => (fs_estado f =? "BAJO")%string)
            (fst (generar_reporte_stock sistema_ejemplo)))).
Proof.
  apply (proj2 (proj2 (proj2
           (generar_reporte_stock_rows_and_alerts sistema_ejemplo)))).
  vm_compute. discriminate.
Defined.

(** X22: [mostrar_productos_ordenados] prints the rows of
    [generar_reporte_stock] rearranged in non-decreasing order of name:
    the same rows, each as often, and likewise the same lines in its
    closing section. *)
Theorem mostrar_productos_ordenados_sorted_permutation
    `{Numeros} (s : SistemaInventario) :
  Sorted fila_leb (fst (mostrar_productos_ordenados s))
  /\ Permutation (fst (mostrar_productos_ordenados s))
       (fst (generar_reporte_stock s))
  /\ Permutation (snd (mostrar_productos_ordenados s))
       (snd (generar_reporte_stock s)).
Proof.
  unfold mostrar_productos_ordenados, generar_reporte_stock.
  rewrite !listar_productos_map. cbn [fst snd].
  set (ps := valores (sis_productos s)). clearbody ps.
  split; [| split].
  - apply Sorted_map_fila, sorted_por_nombre_sorted.
  - apply Permutation_map, sorted_por_nombre_perm.
  - pose proof (Permutation_filter_bool verificar_stock_minimo _ _
                  (sorted_por_nombre_perm ps)) as Hperm.
    unfold avisos_bajo_stock.
    destruct (filter verificar_stock_minimo (sorted_por_nombre ps))
      as [| a la] eqn:Ea;
      destruct (filter verificar_stock_minimo ps) as [| b lb] eqn:Eb.
    + constructor.
    + apply Permutation_nil in Hperm. discriminate.
    + symmetry in Hperm. apply Permutation_nil in Hperm. discriminate.
    + constructor. now apply Permutation_map.
Qed.

(** X23: the sort of [mostrar_productos_ordenados] is stable: the rows of
    products that share a name come in the order in which
    [generar_reporte_stock] prints them, the order of registration. *)
Theorem mostrar_productos_ordenados_stable
    `{Numeros} (s : SistemaInventario) (n : string) :
  filter (fun f => (fs_nombre f =? n)%string)
    (fst (mostrar_productos_ordenados s))
  = filter (fun f => (fs_nombre f =? n)%string)
      (fst (generar_reporte_stock s)).
Proof.
  unfold mostrar_productos_ordenados, generar_reporte_stock.
  rewrite !listar_productos_map. cbn [fst snd].
  now rewrite !filter_map_fila, sorted_por_nombre_filter.
Qed.


(** X25: in every reachable state, the code a product carries is the code
    it is stored under, so looking a code up never yields a product of
    another code. *)
Theorem reachable_products_stored_under_own_code
    `{Numeros} (llamadas : list Llamada) (s : SistemaInventario)
    (c : string) (p : Producto) :
  s = ejecutar_todas llamadas sistema_vacio ->
  obtener c (sis_productos s) = Some p ->
  codigo p = c.
Proof.
  intros -> Hp.
  exact (con_claves_codigos _ (alcanzable_consistente llamadas) c p Hp).
Qed.

Lemma reachable_products_stored_under_own_code_witness :
  codigo na009_con_7 = "NA009".
Proof.
  apply (reachable_products_stored_under_own_code llamadas_nombres _
           "NA009" na009_con_7 eq_refl).
  reflexivity.
Defined.
